(** * QdrantVectorStore: a shallow embedding of [src/vector_store.py]

    The adapter class [QdrantVectorStore] marshals requests to a remote
    Qdrant service and maps the answers back.  Everything the adapter does
    to the outside world (calls on [self.client], [uuid.uuid4()],
    [os.getenv], [print]) is an _event_; a method of the class is a finite
    program over these events, with Python's [raise] / [try ... except
    Exception] made explicit.  A program is run against an arbitrary
    environment (a [handler] over any state), which yields the outcome, the
    final state and the trace of events with the answer each one got.  *)

From Stdlib Require Import ZArith String Ascii PrimFloat.
From stdpp Require Import base option list gmap strings pretty.

Local Open Scope string_scope.
Local Open Scope Z_scope.
Local Open Scope list_scope.

(** ** Python values and exceptions *)

(** The dynamically typed values that travel through payloads and
    metadata ([Dict[str, Any]]). *)
Inductive pyval : Type :=
| PyNone
| PyBool (b : bool)
| PyInt (n : Z)
| PyFloat (x : float)
| PyStr (s : string).

(** An instance of (a subclass of) Python's [Exception]: its class name and
    the text [str(e)] gives. *)
Inductive exn : Type :=
| Exn (cls : string) (msg : string).

Definition str (e : exn) : string :=
  match e with Exn _ msg => msg end.

Definition KeyError (key : string) : exn :=
  Exn "KeyError" ("'" +:+ key +:+ "'").
Definition TypeError_not_subscriptable : exn :=
  Exn "TypeError" "'NoneType' object is not subscriptable".
Definition AttributeError (obj attr : string) : exn :=
  Exn "AttributeError"
      ("'" +:+ obj +:+ "' object has no attribute '" +:+ attr +:+ "'").
(** What pydantic raises when the constructor of [model] refuses its
    arguments.  The text of its report is abbreviated to its subject; no
    statement below depends on it. *)
Definition ValidationError (model : string) : exn :=
  Exn "ValidationError" ("validation error for " +:+ model).

(** [d.get(key)], [d.get(key, default)] and [d[key]] on a dict. *)
Definition dict_get (d : gmap string pyval) (key : string) : pyval :=
  default PyNone (d !! key).
Definition dict_get_default (d : gmap string pyval) (key : string)
    (dflt : pyval) : pyval :=
  default dflt (d !! key).

(** [s.lower()] and [sub in s], on ASCII text. *)
Definition ascii_lower (c : ascii) : ascii :=
  let n := N_of_ascii c in
  if ((65 <=? n) && (n <=? 90))%N then ascii_of_N (n + 32) else c.

Fixpoint lower (s : string) : string :=
  match s with
  | EmptyString => EmptyString
  | String c s' => String (ascii_lower c) (lower s')
  end.

Fixpoint contains (sub s : string) : bool :=
  String.prefix sub s ||
  match s with
  | EmptyString => false
  | String _ s' => contains sub s'
  end.

(** ** The data model *)

(** [langchain_core.documents.Document]: the content is a [str]. *)
Record Document : Type := mkDocument {
  page_content : string;
  metadata : gmap string pyval;
}.

(** The request and answer types of [qdrant_client.http.models]. *)
Inductive Distance : Type := COSINE | EUCLID | DOT | MANHATTAN.
Inductive PayloadSchemaType : Type := KEYWORD | INTEGER | FLOAT | TEXT.

Record VectorParams : Type := mkVectorParams {
  params_size : Z;
  params_distance : Distance;
}.

Record PointStruct : Type := mkPointStruct {
  point_id : string;
  point_vector : list float;
  point_payload : gmap string pyval;
}.

(** A [MatchValue] holds a bool, an int or a str; see [new_MatchValue]. *)
Record MatchValue : Type := mkMatchValue { value : pyval }.
Record FieldCondition : Type := mkFieldCondition {
  key : string;
  match_ : MatchValue;
}.
Record Filter : Type := mkFilter { must : list FieldCondition }.

(** A point as [query_points] returns it; the payload is [Optional]. *)
Record ScoredPoint : Type := mkScoredPoint {
  scored_id : pyval;
  scored_payload : option (gmap string pyval);
  score : float;
}.
Record QueryResponse : Type := mkQueryResponse { points : list ScoredPoint }.

(** A point as [scroll] returns it. *)
Record Record_ : Type := mkRecord {
  record_id : pyval;
  record_payload : option (gmap string pyval);
}.

Record CollectionDescription : Type := mkCollectionDescription {
  name : string;
}.

(** [info.config.params.vectors] is a [VectorParams], a dict of named
    vectors, or [None]; only the first has an attribute [size]. *)
Inductive VectorsConfig : Type :=
| SingleVector (params : VectorParams)
| NamedVectors (names : list string)
| NoVectors.

Record CollectionInfo : Type := mkCollectionInfo {
  vectors : VectorsConfig;
  points_count : option Z;
}.

(** ** Events: what the adapter asks of its environment *)

(** A call on [self.client] answers [inr v] when it returns [v] and [inl e]
    when it raises [e]. *)
Inductive event : Type -> Type :=
| Getenv (var : string) : event (option string)
| QdrantClient (url : string) (api_key : option string) : event (exn + unit)
| GetCollections : event (exn + list CollectionDescription)
| CreateCollection (collection_name : string) (vectors_config : VectorParams)
    : event (exn + unit)
| CreatePayloadIndex (collection_name field_name : string)
    (field_schema : PayloadSchemaType) : event (exn + unit)
| Upsert (collection_name : string) (points : list PointStruct)
    : event (exn + unit)
| QueryPoints (collection_name : string) (query : list float)
    (query_filter : option Filter) (limit : Z) : event (exn + QueryResponse)
| Scroll (collection_name : string) (scroll_filter : Filter) (limit : Z)
    : event (exn + (list Record_ * option pyval))
| Delete (collection_name : string) (points_selector : Filter)
    : event (exn + unit)
| GetCollection (collection_name : string) : event (exn + CollectionInfo)
| Uuid4 : event string
| Print (line : string) : event unit.

(** ** Programs *)

Inductive prog (A : Type) : Type :=
| Ret (a : A)
| Raise (e : exn)
| Vis {R : Type} (ev : event R) (k : R -> prog A).

Arguments Ret {A} a.
Arguments Raise {A} e.
Arguments Vis {A R} ev k.

Fixpoint bind {A B} (p : prog A) (f : A -> prog B) : prog B :=
  match p with
  | Ret a => f a
  | Raise e => Raise e
  | Vis ev k => Vis ev (fun r => bind (k r) f)
  end.

#[export] Instance prog_bind : MBind prog := fun A B f p => bind p f.
#[export] Instance prog_ret : MRet prog := fun A a => Ret a.

(** [try: p except Exception as e: h e]. *)
Fixpoint try_except {A} (p : prog A) (h : exn -> prog A) : prog A :=
  match p with
  | Ret a => Ret a
  | Raise e => h e
  | Vis ev k => Vis ev (fun r => try_except (k r) h)
  end.

(** An event whose answer is used as it is. *)
Definition perform {R} (ev : event R) : prog R := Vis ev Ret.

(** A call that may raise: the exception propagates from the call site. *)
Definition call {R} (ev : event (exn + R)) : prog R :=
  Vis ev (fun r => match r with inl e => Raise e | inr v => Ret v end).

Definition print (line : string) : prog unit := perform (Print line).

(** ** Running a program against an environment *)

(** The environment answers every event from its own state [W]: the remote
    service, the process environment, the random generator behind
    [uuid4]. *)
Definition handler (W : Type) : Type := forall R, event R -> W -> R * W.

(** One step of a run: the event and the answer it got. *)
Inductive entry : Type :=
| Entry {R : Type} (ev : event R) (r : R).

Definition trace : Type := list entry.

Fixpoint exec {W A} (h : handler W) (p : prog A) (w : W)
    : (exn + A) * W * trace :=
  match p with
  | Ret a => (inr a, w, [])
  | Raise e => (inl e, w, [])
  | Vis ev k =>
      let '(r, w1) := h _ ev w in
      let '(o, w2, t) := exec h (k r) w1 in
      (o, w2, Entry ev r :: t)
  end.

Definition outcome {W A} (h : handler W) (p : prog A) (w : W) : exn + A :=
  (exec h p w).1.1.
Definition trace_of {W A} (h : handler W) (p : prog A) (w : W) : trace :=
  (exec h p w).2.

(** ** The class [QdrantVectorStore] *)

(** The attributes of [self] besides the client handle, which is the
    environment the events go to. *)
Record QdrantVectorStore : Type := mkQdrantVectorStore {
  collection_name : string;
  vector_size : Z;
}.

(** [os.getenv(var, dflt)]. *)
Definition getenv_default (var dflt : string) : prog string :=
  v ← perform (Getenv var); Ret (default dflt v).

(** One of the two inner [try] blocks of [_ensure_collection_exists]. *)
Definition ensure_payload_index (self : QdrantVectorStore)
    (field_name : string) : prog unit :=
  try_except
    (call (CreatePayloadIndex (collection_name self) field_name KEYWORD);;
     print ("Created " +:+ field_name +:+ " index"))
    (fun e =>
       if negb (contains "already exists" (lower (str e)))
       then print (str e)
       else Ret tt).

Definition _ensure_collection_exists (self : QdrantVectorStore) : prog unit :=
  try_except
    (collections ← call GetCollections;
     let collection_names : list string := name <$> collections in
     (if bool_decide (collection_name self ∈ collection_names)
      then Ret tt
      else
        call (CreateCollection (collection_name self)
                (mkVectorParams (vector_size self) COSINE));;
        print ("Created collection: " +:+ collection_name self));;
     ensure_payload_index self "session_id";;
     ensure_payload_index self "source_type")
    (fun e =>
       print ("Error ensuring collection exists: " +:+ str e);;
       Raise e).

Definition __init__ : prog QdrantVectorStore :=
  url ← getenv_default "QDRANT_URL" "http://localhost:6333";
  api_key ← perform (Getenv "QDRANT_API_KEY");
  call (QdrantClient url api_key);;
  collection_name ← getenv_default "COLLECTION_NAME" "rag_documents";
  let self := mkQdrantVectorStore collection_name 768 in
  _ensure_collection_exists self;;
  Ret self.

(** *** add_documents *)

(** The payload of the point built for [doc] at position [i]. *)
Definition make_payload (i : nat) (doc : Document) : gmap string pyval :=
  list_to_map
    [("content", PyStr (page_content doc));
     ("source_type", dict_get (metadata doc) "source_type");
     ("source_name", dict_get (metadata doc) "source_name");
     ("session_id", dict_get (metadata doc) "session_id");
     ("chunk_id", dict_get_default (metadata doc) "chunk_id"
                    (PyInt (Z.of_nat i)))].

(** The loop [for i, (doc, embedding) in enumerate(zip(...))], from
    position [i] on, with [points] the list built so far. *)
Fixpoint build_points (i : nat) (pairs : list (Document * list float))
    (points : list PointStruct) : prog (list PointStruct) :=
  match pairs with
  | [] => Ret points
  | (doc, embedding) :: rest =>
      match embedding with
      | [] => build_points (S i) rest points
      | _ :: _ =>
          id ← perform Uuid4;
          let point := mkPointStruct id embedding (make_payload i doc) in
          build_points (S i) rest (points ++ [point])
      end
  end.

Definition add_documents (self : QdrantVectorStore)
    (documents : list Document) (embeddings : list (list float))
    : prog bool :=
  try_except
    (points ← build_points 0 (zip documents embeddings) [];
     match points with
     | [] => print "No valid points to upload";; Ret false
     | _ :: _ =>
         call (Upsert (collection_name self) points);;
         print ("Successfully added " +:+ pretty (length points)
                +:+ " documents to vector store");;
         Ret true
     end)
    (fun e => print ("Error adding documents: " +:+ str e);; Ret false).

(** *** similarity_search *)

(** The values [MatchValue] accepts: its field is a union of strict bool,
    int and str. *)
Definition valid_match_value (value : pyval) : bool :=
  match value with
  | PyBool _ | PyInt _ | PyStr _ => true
  | PyNone | PyFloat _ => false
  end.

(** [MatchValue(value=value)]: the constructor validates its argument and
    raises for any other value. *)
Definition new_MatchValue (value : pyval) : prog MatchValue :=
  if valid_match_value value then Ret (mkMatchValue value)
  else Raise (ValidationError "MatchValue").

(** The loop [for key, value in filter_dict.items()], with [conditions]
    the list built so far.  A [gmap] lists its entries in an order of its
    own; the conditions are combined by [must], so their order carries no
    meaning, and the exception of a refused value is the same whichever
    entry raises it. *)
Fixpoint make_conditions (items : list (string * pyval))
    (conditions : list FieldCondition) : prog (list FieldCondition) :=
  match items with
  | [] => Ret conditions
  | (key, value) :: rest =>
      m ← new_MatchValue value;
      make_conditions rest (conditions ++ [mkFieldCondition key m])
  end.

(** [if filter_dict:] holds for a dict that is neither [None] nor empty. *)
Definition make_query_filter (filter_dict : option (gmap string pyval))
    : prog (option Filter) :=
  match filter_dict with
  | None => Ret None
  | Some d =>
      if bool_decide (d = ∅) then Ret None
      else
        conditions ← make_conditions (map_to_list d) [];
        Ret (Some (mkFilter conditions))
  end.

(** [Document(page_content=..., metadata=...)]: the constructor validates
    that the content is a [str] and raises for any other value. *)
Definition new_Document (page_content : pyval)
    (metadata : gmap string pyval) : prog Document :=
  match page_content with
  | PyStr s => Ret (mkDocument s metadata)
  | _ => Raise (ValidationError "Document")
  end.

(** [payload["content"]] on an optional payload. *)
Definition payload_getitem (payload : option (gmap string pyval))
    (key : string) : prog pyval :=
  match payload with
  | None => Raise TypeError_not_subscriptable
  | Some d =>
      match d !! key with
      | Some v => Ret v
      | None => Raise (KeyError key)
      end
  end.

(** [payload.get(key)] on an optional payload. *)
Definition payload_get (payload : option (gmap string pyval))
    (key : string) : prog pyval :=
  match payload with
  | None => Raise (AttributeError "NoneType" "get")
  | Some d => Ret (dict_get d key)
  end.

Definition result_to_document (result : ScoredPoint) : prog Document :=
  content ← payload_getitem (scored_payload result) "content";
  source_type ← payload_get (scored_payload result) "source_type";
  source_name ← payload_get (scored_payload result) "source_name";
  session_id ← payload_get (scored_payload result) "session_id";
  chunk_id ← payload_get (scored_payload result) "chunk_id";
  new_Document content
    (list_to_map
       [("source_type", source_type);
        ("source_name", source_name);
        ("session_id", session_id);
        ("chunk_id", chunk_id);
        ("score", PyFloat (score result))]).

(** The loop [for result in search_results.points]. *)
Fixpoint results_to_documents (results : list ScoredPoint)
    (documents : list Document) : prog (list Document) :=
  match results with
  | [] => Ret documents
  | result :: rest =>
      d ← result_to_document result;
      results_to_documents rest (documents ++ [d])
  end.

(** The default of the parameter [k]. *)
Definition k_default : Z := 5.

Definition similarity_search (self : QdrantVectorStore)
    (query_embedding : list float) (k : Z)
    (filter_dict : option (gmap string pyval)) : prog (list Document) :=
  try_except
    (match query_embedding with
     | [] => Ret []
     | _ :: _ =>
         query_filter ← make_query_filter filter_dict;
         search_results ←
           call (QueryPoints (collection_name self) query_embedding
                   query_filter k);
         results_to_documents (points search_results) []
     end)
    (fun e =>
       print ("Error performing similarity search: " +:+ str e);; Ret []).

(** *** get_documents_by_session, delete_by_session, get_collection_info *)

Definition session_filter (session_id : string) : Filter :=
  mkFilter [mkFieldCondition "session_id" (mkMatchValue (PyStr session_id))].

Definition record_to_dict (p : Record_) : prog (gmap string pyval) :=
  content ← payload_get (record_payload p) "content";
  source_type ← payload_get (record_payload p) "source_type";
  source_name ← payload_get (record_payload p) "source_name";
  chunk_id ← payload_get (record_payload p) "chunk_id";
  Ret (list_to_map
         [("id", record_id p);
          ("content", content);
          ("source_type", source_type);
          ("source_name", source_name);
          ("chunk_id", chunk_id)]).

Fixpoint records_to_dicts (ps : list Record_)
    (docs : list (gmap string pyval)) : prog (list (gmap string pyval)) :=
  match ps with
  | [] => Ret docs
  | p :: rest =>
      d ← record_to_dict p;
      records_to_dicts rest (docs ++ [d])
  end.

Definition get_documents_by_session (self : QdrantVectorStore)
    (session_id : string) : prog (list (gmap string pyval)) :=
  try_except
    ('(points, _) ←
       call (Scroll (collection_name self) (session_filter session_id) 1000);
     records_to_dicts points [])
    (fun e =>
       print ("Error getting documents by session: " +:+ str e);; Ret []).

Definition delete_by_session (self : QdrantVectorStore)
    (session_id : string) : prog bool :=
  try_except
    (call (Delete (collection_name self) (session_filter session_id));;
     print ("Deleted documents for session: " +:+ session_id);;
     Ret true)
    (fun e =>
       print ("Error deleting session documents: " +:+ str e);; Ret false).

(** [info.config.params.vectors.size]. *)
Definition vectors_size (v : VectorsConfig) : prog Z :=
  match v with
  | SingleVector params => Ret (params_size params)
  | NamedVectors _ => Raise (AttributeError "dict" "size")
  | NoVectors => Raise (AttributeError "NoneType" "size")
  end.

Definition optional_int (n : option Z) : pyval :=
  match n with Some n => PyInt n | None => PyNone end.

Definition get_collection_info (self : QdrantVectorStore)
    : prog (gmap string pyval) :=
  try_except
    (info ← call (GetCollection (collection_name self));
     vector_size ← vectors_size (vectors info);
     Ret (list_to_map
            [("name", PyStr (collection_name self));
             ("vector_size", PyInt vector_size);
             ("points_count", optional_int (points_count info))]))
    (fun e => print ("Error getting collection info: " +:+ str e);; Ret ∅).

(** ** Observing a trace *)

(** The exception a call on the client (or its constructor) raised, if the
    entry is such a call and it raised. *)
Definition client_error (en : entry) : option exn :=
  match en with
  | Entry ev r =>
      match ev in event R return R -> option exn with
      | Getenv _ | Uuid4 | Print _ => fun _ => None
      | QdrantClient _ _ | GetCollections | CreateCollection _ _
      | CreatePayloadIndex _ _ _ | Upsert _ _ | Delete _ _ =>
          fun r => match r with inl e => Some e | inr _ => None end
      | QueryPoints _ _ _ _ =>
          fun r => match r with inl e => Some e | inr _ => None end
      | Scroll _ _ _ =>
          fun r => match r with inl e => Some e | inr _ => None end
      | GetCollection _ =>
          fun r => match r with inl e => Some e | inr _ => None end
      end r
  end.

Definition client_errors (t : trace) : list exn := omap client_error t.

(** The lines printed, the identifiers [uuid4] gave, and the arguments of
    the [upsert] calls, in the order of the run. *)
Definition printed_line (en : entry) : option string :=
  match en with
  | Entry ev _ => match ev with Print line => Some line | _ => None end
  end.
Definition printed (t : trace) : list string := omap printed_line t.

Definition drawn_uuid (en : entry) : option string :=
  match en with
  | Entry ev r =>
      match ev in event R return R -> option string with
      | Uuid4 => fun r => Some r
      | _ => fun _ => None
      end r
  end.
Definition drawn (t : trace) : list string := omap drawn_uuid t.

Definition upsert_call (en : entry) : option (string * list PointStruct) :=
  match en with
  | Entry ev _ =>
      match ev with
      | Upsert collection_name points => Some (collection_name, points)
      | _ => None
      end
  end.
Definition upsert_calls (t : trace) : list (string * list PointStruct) :=
  omap upsert_call t.

(** Every point handed to the service by the run. *)
Definition upserted (t : trace) : list PointStruct :=
  concat (upsert_calls t).*2.

(** Whether an entry is a request to the service, as opposed to a local
    effect of the process ([getenv], [uuid4], [print]). *)
Definition is_request (en : entry) : bool :=
  match en with
  | Entry ev _ =>
      match ev with
      | Getenv _ | Uuid4 | Print _ | QdrantClient _ _ => false
      | _ => true
      end
  end.
Definition requests (t : trace) : list entry := filter is_request t.

(** ** What the claims speak about *)

(** The positions of the input that yield a point: the pairs, with their
    position, whose embedding is not empty. *)
Fixpoint valid_pairs (i : nat) (pairs : list (Document * list float))
    : list (nat * Document * list float) :=
  match pairs with
  | [] => []
  | (doc, embedding) :: rest =>
      match embedding with
      | [] => valid_pairs (S i) rest
      | _ :: _ => (i, doc, embedding) :: valid_pairs (S i) rest
      end
  end.

(** The point of a valid pair once its identifier is known. *)
Definition make_point (id : string) (v : nat * Document * list float)
    : PointStruct :=
  mkPointStruct id v.2 (make_payload v.1.1 v.1.2).

(** The number of pairs whose embedding is empty. *)
Definition empty_count (pairs : list (Document * list float)) : nat :=
  length (filter (fun p => p.2 = []) pairs).

(** The meaning the service gives to a filter: a condition holds of a
    payload when the payload has the field with exactly that value, and a
    filter holds when all its [must] conditions do. *)
Definition condition_holds (payload : option (gmap string pyval))
    (c : FieldCondition) : Prop :=
  payload ≫= (fun d => d !! key c) = Some (value (match_ c)).

Definition filter_holds (f : Filter) (payload : option (gmap string pyval))
    : Prop :=
  Forall (condition_holds payload) (must f).

(** The service kept to the filter of a [query_points] request. *)
Definition honours_filter (en : entry) : Prop :=
  match en with
  | Entry ev r =>
      match ev in event R return R -> Prop with
      | QueryPoints _ _ (Some f) _ => fun r =>
          match r with
          | inr resp =>
              Forall (fun p => filter_holds f (scored_payload p)) (points resp)
          | inl _ => True
          end
      | _ => fun _ => True
      end r
  end.

(** The service kept to the limit of a [scroll] request. *)
Definition honours_limit (en : entry) : Prop :=
  match en with
  | Entry ev r =>
      match ev in event R return R -> Prop with
      | Scroll _ _ limit => fun r =>
          match r with
          | inr (ps, _) => Z.of_nat (length ps) <= limit
          | inl _ => True
          end
      | _ => fun _ => True
      end r
  end.

(** What the service answered to the [query_points] and [scroll] requests
    of a run that did not raise. *)
Definition query_answer (en : entry) : option QueryResponse :=
  match en with
  | Entry ev r =>
      match ev in event R return R -> option QueryResponse with
      | QueryPoints _ _ _ _ => fun r =>
          match r with inr resp => Some resp | inl _ => None end
      | _ => fun _ => None
      end r
  end.
Definition query_answers (t : trace) : list QueryResponse :=
  omap query_answer t.

Definition scroll_answer (en : entry) : option (list Record_) :=
  match en with
  | Entry ev r =>
      match ev in event R return R -> option (list Record_) with
      | Scroll _ _ _ => fun r =>
          match r with inr (ps, _) => Some ps | inl _ => None end
      | _ => fun _ => None
      end r
  end.
Definition scroll_answers (t : trace) : list (list Record_) :=
  omap scroll_answer t.

(** The Document that stands for a returned point: the content is the
    payload's, the metadata are the four payload fields and the score. *)
Definition stands_for (d : Document) (r : ScoredPoint) : Prop :=
  exists payload : gmap string pyval,
    scored_payload r = Some payload
    /\ payload !! "content" = Some (PyStr (page_content d))
    /\ metadata d =
         list_to_map
           [("source_type", dict_get payload "source_type");
            ("source_name", dict_get payload "source_name");
            ("session_id", dict_get payload "session_id");
            ("chunk_id", dict_get payload "chunk_id");
            ("score", PyFloat (score r))].

(** A returned point whose payload is a dict without the key [content]. *)
Definition lacks_content (r : ScoredPoint) : Prop :=
  exists payload : gmap string pyval,
    scored_payload r = Some payload /\ payload !! "content" = None.

(** Setup: the exception raised by the client constructor, by the
    collection listing or by the collection creation. *)
Definition fatal_error (en : entry) : option exn :=
  match en with
  | Entry ev r =>
      match ev in event R return R -> option exn with
      | QdrantClient _ _ | GetCollections | CreateCollection _ _ =>
          fun r => match r with inl e => Some e | inr _ => None end
      | _ => fun _ => None
      end r
  end.
Definition fatal_errors (t : trace) : list exn := omap fatal_error t.

(** Setup: the collections created, and the indexed fields asked for with
    the answer each request got. *)
Definition created_collection (en : entry) : option (string * VectorParams) :=
  match en with
  | Entry ev _ =>
      match ev with
      | CreateCollection collection_name vectors_config =>
          Some (collection_name, vectors_config)
      | _ => None
      end
  end.
Definition created_collections (t : trace) : list (string * VectorParams) :=
  omap created_collection t.

Definition index_answer (en : entry) : option (string * (exn + unit)) :=
  match en with
  | Entry ev r =>
      match ev in event R return R -> option (string * (exn + unit)) with
      | CreatePayloadIndex _ field_name _ => fun r => Some (field_name, r)
      | _ => fun _ => None
      end r
  end.
Definition index_answers (t : trace) : list (string * (exn + unit)) :=
  omap index_answer t.

(** Whether [str(e)] speaks of something that already exists. *)
Definition says_already_exists (e : exn) : bool :=
  contains "already exists" (lower (str e)).

(** What setup prints for one index request, given its answer. *)
Definition index_log (a : string * (exn + unit)) : list string :=
  match a.2 with
  | inr _ => ["Created " +:+ a.1 +:+ " index"]
  | inl e => if says_already_exists e then [] else [str e]
  end.

(** The runtime operations of the class, and their results. *)
Inductive operation : Type :=
| AddDocuments (documents : list Document) (embeddings : list (list float))
| SimilaritySearch (query_embedding : list float) (k : Z)
    (filter_dict : option (gmap string pyval))
| GetDocumentsBySession (session_id : string)
| DeleteBySession (session_id : string)
| GetCollectionInfo.

Inductive result : Type :=
| Flag (b : bool)
| Documents (ds : list Document)
| Dicts (ds : list (gmap string pyval))
| Dict (d : gmap string pyval).

Definition run (self : QdrantVectorStore) (op : operation) : prog result :=
  match op with
  | AddDocuments documents embeddings =>
      b ← add_documents self documents embeddings; Ret (Flag b)
  | SimilaritySearch query_embedding k filter_dict =>
      ds ← similarity_search self query_embedding k filter_dict;
      Ret (Documents ds)
  | GetDocumentsBySession session_id =>
      ds ← get_documents_by_session self session_id; Ret (Dicts ds)
  | DeleteBySession session_id =>
      b ← delete_by_session self session_id; Ret (Flag b)
  | GetCollectionInfo =>
      d ← get_collection_info self; Ret (Dict d)
  end.

(** The empty or negative value of the result type of an operation. *)
Definition empty_result (op : operation) : result :=
  match op with
  | AddDocuments _ _ | DeleteBySession _ => Flag false
  | SimilaritySearch _ _ _ => Documents []
  | GetDocumentsBySession _ => Dicts []
  | GetCollectionInfo => Dict ∅
  end.

(** ** A small in-memory environment

    Used to run the adapter on concrete inputs.  It keeps the collections,
    the indexed fields and the points in lists, numbers the identifiers it
    hands out, ranks nothing (a query answers the matching points in
    storage order), and can be told to fail. *)

Inductive fault : Type :=
| NoFault
| Unreachable (e : exn)      (* every request raises [e] *)
| IndexFault (e : exn)       (* [create_payload_index] raises [e] *)
| CreateFault (e : exn).     (* [create_collection] raises [e] *)

Record mock : Type := mkMock {
  mock_fault : fault;
  mock_collections : list string;
  mock_indexes : list string;
  mock_points : list PointStruct;
  mock_next : nat;
}.

Definition pyval_eqb (a b : pyval) : bool :=
  match a, b with
  | PyNone, PyNone => true
  | PyBool x, PyBool y => Bool.eqb x y
  | PyInt x, PyInt y => (x =? y)%Z
  | PyFloat x, PyFloat y => PrimFloat.Leibniz.eqb x y
  | PyStr x, PyStr y => String.eqb x y
  | _, _ => false
  end.

Definition condition_holdsb (payload : gmap string pyval)
    (c : FieldCondition) : bool :=
  match payload !! key c with
  | Some v => pyval_eqb v (value (match_ c))
  | None => false
  end.

Definition selected (f : option Filter) (p : PointStruct) : bool :=
  match f with
  | None => true
  | Some f => forallb (condition_holdsb (point_payload p)) (must f)
  end.

Definition unreachable (m : mock) : option exn :=
  match mock_fault m with Unreachable e => Some e | _ => None end.

(** Answer with [e] when unreachable and with [ok] otherwise. *)
Definition reply {R} (m : mock) (ok : R * mock) : (exn + R) * mock :=
  match unreachable m with
  | Some e => (inl e, m)
  | None => (inr ok.1, ok.2)
  end.

Definition already_exists (field_name : string) : exn :=
  Exn "UnexpectedResponse"
      ("Index for field " +:+ field_name +:+ " already exists").

Definition mock_handler : handler mock :=
  fun R ev =>
    match ev in event R return mock -> R * mock with
    | Getenv _ => fun m => (None, m)
    | QdrantClient _ _ => fun m => (inr tt, m)
    | GetCollections => fun m =>
        reply m (mkCollectionDescription <$> mock_collections m, m)
    | CreateCollection collection_name _ => fun m =>
        match mock_fault m with
        | CreateFault e => (inl e, m)
        | _ =>
            reply m (tt, mkMock (mock_fault m)
                           (mock_collections m ++ [collection_name])
                           (mock_indexes m) (mock_points m) (mock_next m))
        end
    | CreatePayloadIndex _ field_name _ => fun m =>
        match mock_fault m with
        | IndexFault e => (inl e, m)
        | _ =>
            if bool_decide (field_name ∈ mock_indexes m)
            then (inl (already_exists field_name), m)
            else
              reply m (tt, mkMock (mock_fault m) (mock_collections m)
                             (mock_indexes m ++ [field_name])
                             (mock_points m) (mock_next m))
        end
    | Upsert _ points => fun m =>
        reply m (tt, mkMock (mock_fault m) (mock_collections m)
                       (mock_indexes m) (mock_points m ++ points)
                       (mock_next m))
    | QueryPoints _ _ query_filter limit => fun m =>
        reply m
          (mkQueryResponse
             ((fun p => mkScoredPoint (PyStr (point_id p))
                          (Some (point_payload p)) 1%float)
                <$> take (Z.to_nat limit)
                      (filter (fun p => selected query_filter p)
                         (mock_points m))), m)
    | Scroll _ scroll_filter limit => fun m =>
        reply m
          ((fun p => mkRecord (PyStr (point_id p))
                        (Some (point_payload p)))
             <$> take (Z.to_nat limit)
                   (filter (fun p => selected (Some scroll_filter) p)
                      (mock_points m)), None, m)
    | Delete _ points_selector => fun m =>
        reply m (tt, mkMock (mock_fault m) (mock_collections m)
                       (mock_indexes m)
                       (filter (fun p => negb (selected (Some points_selector) p))
                          (mock_points m))
                       (mock_next m))
    | GetCollection _ => fun m =>
        reply m
          (mkCollectionInfo (SingleVector (mkVectorParams 768 COSINE))
             (Some (Z.of_nat (length (mock_points m)))), m)
    | Uuid4 => fun m =>
        ("uuid-" +:+ pretty (mock_next m),
         mkMock (mock_fault m) (mock_collections m) (mock_indexes m)
           (mock_points m) (S (mock_next m)))
    | Print _ => fun m => (tt, m)
    end.

(** A fresh service, and one that already holds the collection and both
    indexes. *)
Definition fresh (f : fault) : mock := mkMock f [] [] [] 0.
Definition ready : mock :=
  mkMock NoFault ["rag_documents"] ["session_id"; "source_type"] [] 0.
Definition store : QdrantVectorStore := mkQdrantVectorStore "rag_documents" 768.

(** Documents, embeddings and points to run with. *)
Definition chat_doc (text session : string) : Document :=
  mkDocument text
    (list_to_map [("source_type", PyStr "chat");
                  ("source_name", PyStr "notes.txt");
                  ("session_id", PyStr session)]).
Definition short_embedding : list float := [0.5%float; 0.25%float].


(** A service that holds three points, two of session [s1] around one of
    session [s2]. *)
Definition stocked : mock :=
  mkMock NoFault ["rag_documents"] ["session_id"; "source_type"]
    [mkPointStruct "uuid-0" short_embedding (make_payload 0 (chat_doc "a" "s1"));
     mkPointStruct "uuid-1" short_embedding (make_payload 1 (chat_doc "b" "s2"));
     mkPointStruct "uuid-2" short_embedding (make_payload 2 (chat_doc "c" "s1"))]
    3.

(** The same, with a fourth point of session [s1] that some other writer
    stored without a [content] field. *)
Definition stocked_foreign : mock :=
  mkMock NoFault ["rag_documents"] ["session_id"; "source_type"]
    (mock_points stocked ++
     [mkPointStruct "uuid-3" short_embedding
        (list_to_map [("session_id", PyStr "s1")])])
    4.

(** ** Further observations of a run *)

(** The value the process environment gave for [var], or [dflt] when it
    gave none (or was not asked). *)
Definition getenv_answer (var : string) (en : entry)
    : option (option string) :=
  match en with
  | Entry ev r =>
      match ev in event R return R -> option (option string) with
      | Getenv v => fun r => if String.eqb v var then Some r else None
      | _ => fun _ => None
      end r
  end.
Definition configured (var dflt : string) (t : trace) : string :=
  default dflt (default None (head (omap (getenv_answer var) t))).

(** The names the service listed, for each listing that did not raise. *)
Definition listing (en : entry) : option (list string) :=
  match en with
  | Entry ev r =>
      match ev in event R return R -> option (list string) with
      | GetCollections => fun r =>
          match r with inr cs => Some (name <$> cs) | inl _ => None end
      | _ => fun _ => None
      end r
  end.
Definition listings (t : trace) : list (list string) := omap listing t.

(** What the service answered to the [get_collection] requests of a run
    that did not raise. *)
Definition info_answer (en : entry) : option CollectionInfo :=
  match en with
  | Entry ev r =>
      match ev in event R return R -> option CollectionInfo with
      | GetCollection _ => fun r =>
          match r with inr info => Some info | inl _ => None end
      | _ => fun _ => None
      end r
  end.
Definition info_answers (t : trace) : list CollectionInfo :=
  omap info_answer t.

(** The service kept to the limit of a [query_points] request. *)
Definition honours_query_limit (en : entry) : Prop :=
  match en with
  | Entry ev r =>
      match ev in event R return R -> Prop with
      | QueryPoints _ _ _ limit => fun r =>
          match r with
          | inr resp => Z.of_nat (length (points resp)) <= limit
          | inl _ => True
          end
      | _ => fun _ => True
      end r
  end.

(** The line the [except] branch of an operation prints for [e]. *)
Definition error_line (op : operation) (e : exn) : string :=
  match op with
  | AddDocuments _ _ => "Error adding documents: " +:+ str e
  | SimilaritySearch _ _ _ =>
      "Error performing similarity search: " +:+ str e
  | GetDocumentsBySession _ =>
      "Error getting documents by session: " +:+ str e
  | DeleteBySession _ => "Error deleting session documents: " +:+ str e
  | GetCollectionInfo => "Error getting collection info: " +:+ str e
  end.

(** The record a scrolled point with a payload is turned into. *)
Definition stands_for_record (d : gmap string pyval) (p : Record_) : Prop :=
  exists payload : gmap string pyval,
    record_payload p = Some payload
    /\ d = list_to_map
             [("id", record_id p);
              ("content", dict_get payload "content");
              ("source_type", dict_get payload "source_type");
              ("source_name", dict_get payload "source_name");
              ("chunk_id", dict_get payload "chunk_id")].

(** A returned point that [similarity_search] can map: its payload is a
    dict whose [content] is a string. *)
Definition well_formed (r : ScoredPoint) : Prop :=
  exists (payload : gmap string pyval) (s : string),
    scored_payload r = Some payload /\ payload !! "content" = Some (PyStr s).

(** A filter mapping with a value [MatchValue] refuses. *)
Definition refused (filter_dict : option (gmap string pyval)) : Prop :=
  exists (d : gmap string pyval) (key : string) (v : pyval),
    filter_dict = Some d /\ d !! key = Some v /\ valid_match_value v = false.

(** The conditions of a mapping all of whose values are accepted. *)
Definition conditions_of (items : list (string * pyval))
    : list FieldCondition :=
  (fun '(key, value) => mkFieldCondition key (mkMatchValue value)) <$> items.

(** The filter of the request, for a mapping without a refused value. *)
Definition query_filter_of (filter_dict : option (gmap string pyval))
    : option Filter :=
  match filter_dict with
  | None => None
  | Some d =>
      if bool_decide (d = ∅) then None
      else Some (mkFilter (conditions_of (map_to_list d)))
  end.

(** Setup: the exception raised by the client constructor, and the one
    raised by the collection listing or the collection creation, inside the
    [try] of [_ensure_collection_exists]. *)
Definition constructor_error (en : entry) : option exn :=
  match en with
  | Entry ev r =>
      match ev in event R return R -> option exn with
      | QdrantClient _ _ =>
          fun r => match r with inl e => Some e | inr _ => None end
      | _ => fun _ => None
      end r
  end.
Definition constructor_errors (t : trace) : list exn :=
  omap constructor_error t.

Definition ensure_error (en : entry) : option exn :=
  match en with
  | Entry ev r =>
      match ev in event R return R -> option exn with
      | GetCollections | CreateCollection _ _ =>
          fun r => match r with inl e => Some e | inr _ => None end
      | _ => fun _ => None
      end r
  end.
Definition ensure_errors (t : trace) : list exn := omap ensure_error t.

(** ** Tactics for following a run *)

(** Ask the environment for its answer to the next event of the run. *)
Ltac answer h :=
  match goal with
  | |- context [h ?R ?ev ?w] =>
      let r := fresh "r" in let w' := fresh "w" in
      destruct (h R ev w) as [r w']
  end.

Ltac run_exec :=
  unfold mbind, prog_bind, print, perform, call;
  cbn [bind try_except exec].

(** Follow the run in the goal to its end, through every answer the
    environment may give and every test the program makes. *)
Ltac crunch h :=
  repeat (run_exec;
          first
            [ answer h
            | match goal with
              | |- context [match ?r with inl _ => _ | inr _ => _ end] =>
                  is_var r; destruct r as [?|?]
              | |- context [bool_decide ?P] =>
                  destruct (bool_decide P) eqn:?
              | |- context [negb (contains ?a ?b)] =>
                  destruct (contains a b) eqn:?; cbn [negb]
              end ]);
  run_exec.

(** ** Laws of [exec] *)

Section Exec.
Context {W : Type} (h : handler W).

Lemma exec_bind {A B} (p : prog A) (f : A -> prog B) (w : W) :
  exec h (bind p f) w =
  match exec h p w with
  | (inr a, w1, t) =>
      let '(o, w2, t2) := exec h (f a) w1 in (o, w2, t ++ t2)
  | (inl e, w1, t) => (inl e, w1, t)
  end.
Proof.
  revert w; induction p as [a|e|R ev k IH]; intros w; simpl.
  - by destruct (exec h (f a) w) as [[o w2] t2].
  - done.
  - destruct (h R ev w) as [r w1]. rewrite IH.
    destruct (exec h (k r) w1) as [[[e|a] w2] t]; [done|].
    by destruct (exec h (f a) w2) as [[o w3] t3].
Qed.

Lemma exec_try_except {A} (p : prog A) (hd : exn -> prog A) (w : W) :
  exec h (try_except p hd) w =
  match exec h p w with
  | (inr a, w1, t) => (inr a, w1, t)
  | (inl e, w1, t) =>
      let '(o, w2, t2) := exec h (hd e) w1 in (o, w2, t ++ t2)
  end.
Proof.
  revert w; induction p as [a|e|R ev k IH]; intros w; simpl.
  - done.
  - by destruct (exec h (hd e) w) as [[o w2] t2].
  - destruct (h R ev w) as [r w1]. rewrite IH.
    destruct (exec h (k r) w1) as [[[e|a] w2] t]; [|done].
    by destruct (exec h (hd e) w2) as [[o w3] t3].
Qed.

(** The loop of [add_documents] draws one identifier per valid pair,
    does nothing else, and cannot raise. *)
Lemma exec_build_points (pairs : list (Document * list float)) :
  forall (i : nat) (acc : list PointStruct) (w : W),
  exists (ids : list string) (w' : W),
    exec h (build_points i pairs acc) w =
      (inr (acc ++ zip_with make_point ids (valid_pairs i pairs)), w',
       Entry Uuid4 <$> ids)
    /\ length ids = length (valid_pairs i pairs).
Proof.
  induction pairs as [|[doc embedding] rest IH]; intros i acc w.
  - exists [], w. simpl. by rewrite app_nil_r.
  - destruct embedding as [|x embedding]; [apply IH|].
    cbn [build_points valid_pairs].
    unfold mbind, prog_bind, perform. cbn [bind exec].
    destruct (h _ Uuid4 w) as [id w1].
    destruct (IH (S i) (acc ++ [mkPointStruct id (x :: embedding)
                                  (make_payload i doc)]) w1)
      as (ids & w' & Hexec & Hlen).
    exists (id :: ids), w'. rewrite Hexec. split.
    + by rewrite <- app_assoc.
    + simpl. by rewrite Hlen.
Qed.

End Exec.

Lemma client_errors_app (t1 t2 : trace) :
  client_errors (t1 ++ t2) = client_errors t1 ++ client_errors t2.
Proof. apply omap_app. Qed.

Lemma client_errors_uuids (ids : list string) :
  client_errors (Entry Uuid4 <$> ids) = [].
Proof. by induction ids. Qed.

(** ** The two mapping loops *)

(** One returned point either becomes the Document that stands for it, or
    an exception is raised; no event is involved. *)
Lemma result_to_document_cases (r : ScoredPoint) :
  (exists d, result_to_document r = Ret d /\ stands_for d r)
  \/ (exists e, result_to_document r = Raise e).
Proof.
  unfold result_to_document, stands_for.
  destruct (scored_payload r) as [payload|] eqn:Hp; simpl; [|eauto].
  destruct (payload !! "content") as [content|] eqn:Hc; simpl; [|eauto].
  destruct content as [| | | |s]; simpl; eauto.
  left. eexists. split; [done|]. exists payload. by simpl.
Qed.

Lemma results_to_documents_cases (rs : list ScoredPoint) :
  forall acc : list Document,
    (exists ds, results_to_documents rs acc = Ret (acc ++ ds)
                /\ Forall2 stands_for ds rs)
    \/ (exists e, results_to_documents rs acc = Raise e).
Proof.
  induction rs as [|r rs IH]; intros acc; simpl.
  - left. exists []. by rewrite app_nil_r.
  - destruct (result_to_document_cases r) as [(d & -> & Hd)|(e & ->)];
      simpl; [|eauto].
    destruct (IH (acc ++ [d])) as [(ds & -> & Hds)|(e & ->)]; [|eauto].
    left. exists (d :: ds). rewrite <- app_assoc. by split; [|constructor].
Qed.

(** The dict a scrolled point is turned into. *)
Lemma records_to_dicts_cases (ps : list Record_) :
  forall acc : list (gmap string pyval),
    (exists ds, records_to_dicts ps acc = Ret (acc ++ ds)
                /\ Forall2 (fun d p => record_to_dict p = Ret d) ds ps)
    \/ (exists e, records_to_dicts ps acc = Raise e).
Proof.
  induction ps as [|p ps IH]; intros acc; simpl.
  - left. exists []. by rewrite app_nil_r.
  - assert ((exists d, record_to_dict p = Ret d)
            \/ (exists e, record_to_dict p = Raise e)) as [[d Hd]|[e ->]].
    { unfold record_to_dict. destruct (record_payload p); simpl; eauto. }
    2: { simpl; eauto. }
    rewrite Hd. simpl.
    destruct (IH (acc ++ [d])) as [(ds & -> & Hds)|(e & ->)]; [|eauto].
    left. exists (d :: ds). rewrite <- app_assoc. by split; [|constructor].
Qed.

(** ** The filter of a search *)

(** Building the conditions either accepts every value, and gives one
    condition per entry, or meets a refused value and raises. *)
Lemma make_conditions_cases (items : list (string * pyval)) :
  forall acc : list FieldCondition,
    (Forall (fun kv => valid_match_value kv.2 = true) items
     /\ make_conditions items acc = Ret (acc ++ conditions_of items))
    \/ (Exists (fun kv => valid_match_value kv.2 = false) items
        /\ make_conditions items acc = Raise (ValidationError "MatchValue")).
Proof.
  induction items as [|[key v] items IH]; intros acc.
  - left. split; [done|]. cbn. by rewrite app_nil_r.
  - cbn [make_conditions]. unfold new_MatchValue.
    destruct (valid_match_value v) eqn:Hv; cbn.
    + destruct (IH (acc ++ [mkFieldCondition key (mkMatchValue v)]))
        as [[Hall ->]|[Hex ->]].
      * left. split; [by constructor|]. by rewrite <- app_assoc.
      * right. split; [by apply Exists_cons_tl|done].
    + right. split; [by apply Exists_cons_hd|done].
Qed.

Lemma make_query_filter_cases (filter_dict : option (gmap string pyval)) :
  (refused filter_dict
   /\ make_query_filter filter_dict = Raise (ValidationError "MatchValue"))
  \/ (~ refused filter_dict
      /\ make_query_filter filter_dict =
           Ret (query_filter_of filter_dict)).
Proof.
  destruct filter_dict as [d|]; cbn [make_query_filter query_filter_of].
  2: { right. split; [|done]. by intros (d & key & v & [=] & _). }
  case_bool_decide as Hd.
  { right. split; [|done]. intros (d' & key & v & [= <-] & Hl & _).
    by rewrite Hd, lookup_empty in Hl. }
  destruct (make_conditions_cases (map_to_list d) []) as [[Hall ->]|[Hex ->]].
  - right. split; [|done]. intros (d' & key & v & [= <-] & Hl & Hv).
    rewrite Forall_forall in Hall.
    apply elem_of_map_to_list in Hl. apply Hall in Hl. cbn in Hl. congruence.
  - left. split; [|done]. apply Exists_exists in Hex as ([key v] & Hin & Hv).
    exists d, key, v. split; [done|]. split; [|done].
    by apply elem_of_map_to_list.
Qed.

(** ** Facts about [valid_pairs] *)

Lemma valid_pairs_length (pairs : list (Document * list float)) (i : nat) :
  length (valid_pairs i pairs) = (length pairs - empty_count pairs)%nat.
Proof.
  unfold empty_count. revert i.
  induction pairs as [|[doc embedding] rest IH]; intros i; [done|].
  pose proof (length_filter (fun p : Document * list float => p.2 = []) rest).
  destruct embedding as [|x embedding]; cbn [valid_pairs].
  - rewrite filter_cons_True by done. simpl. apply IH.
  - rewrite filter_cons_False by done. simpl. rewrite IH. lia.
Qed.

Lemma valid_pairs_lookup (pairs : list (Document * list float)) :
  forall (i j : nat) (doc : Document) (embedding : list float),
    (j, doc, embedding) ∈ valid_pairs i pairs ->
    (i <= j)%nat /\ pairs !! (j - i)%nat = Some (doc, embedding)
    /\ embedding <> [].
Proof.
  induction pairs as [|[doc0 emb0] rest IH]; intros i j doc embedding Hin.
  - by apply elem_of_nil in Hin.
  - assert ((j, doc, embedding) ∈ valid_pairs (S i) rest ->
            (i <= j)%nat /\ ((doc0, emb0) :: rest) !! (j - i)%nat
                            = Some (doc, embedding) /\ embedding <> [])
      as Hrest.
    { intros Hr. destruct (IH _ _ _ _ Hr) as (Hle & Hl & Hne).
      split; [lia|]. split; [|done].
      replace (j - i)%nat with (S (j - S i)) by lia. done. }
    destruct emb0 as [|x emb0]; cbn [valid_pairs] in Hin; [auto|].
    apply elem_of_cons in Hin as [Heq|Hin]; [|auto].
    injection Heq as -> -> ->. rewrite Nat.sub_diag. done.
Qed.

Lemma valid_pairs_all_empty (pairs : list (Document * list float)) (i : nat) :
  Forall (fun p => p.2 = []) pairs -> valid_pairs i pairs = [].
Proof.
  intros Hall. revert i.
  induction Hall as [|[doc embedding] rest Hemp _ IH]; intros i; [done|].
  simpl in Hemp. subst embedding. apply IH.
Qed.

(** ** Traces of identifier draws *)

Lemma drawn_app (t1 t2 : trace) : drawn (t1 ++ t2) = drawn t1 ++ drawn t2.
Proof. apply omap_app. Qed.
Lemma upsert_calls_app (t1 t2 : trace) :
  upsert_calls (t1 ++ t2) = upsert_calls t1 ++ upsert_calls t2.
Proof. apply omap_app. Qed.
Lemma requests_app (t1 t2 : trace) :
  requests (t1 ++ t2) = requests t1 ++ requests t2.
Proof. apply filter_app. Qed.
Lemma printed_app (t1 t2 : trace) :
  printed (t1 ++ t2) = printed t1 ++ printed t2.
Proof. apply omap_app. Qed.

Lemma uuids_trace (ids : list string) :
  drawn (Entry Uuid4 <$> ids) = ids
  /\ upsert_calls (Entry Uuid4 <$> ids) = []
  /\ requests (Entry Uuid4 <$> ids) = []
  /\ printed (Entry Uuid4 <$> ids) = [].
Proof.
  induction ids as [|id ids (IH1 & IH2 & IH3 & IH4)]; [done|].
  repeat split; [|done..]. cbn. by f_equal.
Qed.

(** ** A run of [add_documents] *)

Lemma add_documents_run {W} (h : handler W) (w : W)
    (self : QdrantVectorStore) (documents : list Document)
    (embeddings : list (list float)) :
  let vs := valid_pairs 0 (zip documents embeddings) in
  let t := trace_of h (add_documents self documents embeddings) w in
  exists ids : list string,
    length ids = length vs
    /\ drawn t = ids
    /\ upsert_calls t =
         match zip_with make_point ids vs with
         | [] => []
         | pts => [(collection_name self, pts)]
         end
    /\ (exists b, outcome h (add_documents self documents embeddings) w = inr b)
    /\ (vs = [] ->
        outcome h (add_documents self documents embeddings) w = inr false
        /\ requests t = []).
Proof.
  intros vs t. subst t. unfold trace_of, outcome, add_documents.
  unfold mbind, prog_bind. rewrite exec_try_except, exec_bind.
  destruct (exec_build_points h (zip documents embeddings) 0%nat [] w)
    as (ids & w' & -> & Hlen).
  fold vs in Hlen |- *. rewrite app_nil_l. exists ids.
  destruct (uuids_trace ids) as (Hd & Hu & Hr & _).
  destruct (zip_with make_point ids vs) as [|p pts] eqn:Hpts.
  - run_exec. answer h. cbn [fst snd].
    rewrite drawn_app, upsert_calls_app, requests_app, Hd, Hu, Hr.
    repeat split; eauto using app_nil_r.
  - assert (vs <> []) as Hvs.
    { intros Hnil. rewrite Hnil, zip_with_nil_r in Hpts. done. }
    run_exec. answer h. destruct r as [e|[]]; run_exec; answer h;
      cbn [fst snd];
      rewrite ?drawn_app, ?upsert_calls_app, Hd, Hu;
      cbn [drawn upsert_calls omap drawn_uuid upsert_call option_bind
           mbind app list_omap];
      rewrite ?app_nil_r; repeat split; eauto; done.
Qed.

Lemma add_documents_upserted {W} (h : handler W) (w : W)
    (self : QdrantVectorStore) (documents : list Document)
    (embeddings : list (list float)) :
  let t := trace_of h (add_documents self documents embeddings) w in
  length (drawn t) = length (valid_pairs 0 (zip documents embeddings))
  /\ upserted t =
       zip_with make_point (drawn t)
         (valid_pairs 0 (zip documents embeddings)).
Proof.
  intros t.
  destruct (add_documents_run h w self documents embeddings)
    as (ids & Hlen & Hd & Hu & _).
  fold t in Hd, Hu. rewrite Hd. split; [done|].
  unfold upserted. rewrite Hu.
  destruct (zip_with make_point ids _); [done|]. simpl. by rewrite app_nil_r.
Qed.

(** ** The points [add_documents] builds *)

Lemma make_payload_dom (i : nat) (doc : Document) :
  dom (make_payload i doc) =
    ({["content"; "source_type"; "source_name"; "session_id"; "chunk_id"]}
       : gset string).
Proof.
  unfold make_payload. cbn [list_to_map foldr uncurry fst snd].
  rewrite !dom_insert_L, dom_empty_L. set_solver.
Qed.

Lemma make_payload_lookup (i : nat) (doc : Document) :
  make_payload i doc !! "content" = Some (PyStr (page_content doc))
  /\ make_payload i doc !! "source_type"
     = Some (dict_get (metadata doc) "source_type")
  /\ make_payload i doc !! "source_name"
     = Some (dict_get (metadata doc) "source_name")
  /\ make_payload i doc !! "session_id"
     = Some (dict_get (metadata doc) "session_id")
  /\ make_payload i doc !! "chunk_id"
     = Some (default (PyInt (Z.of_nat i)) (metadata doc !! "chunk_id")).
Proof. unfold make_payload. repeat split; by simplify_map_eq. Qed.

(** Every upserted point is the point of a valid pair: it sits at a
    position of the input that both lists have, carries that embedding,
    which is not empty, and the payload made from that document. *)
Lemma upserted_point {W} (h : handler W) (w : W)
    (self : QdrantVectorStore) (documents : list Document)
    (embeddings : list (list float)) (p : PointStruct) :
  p ∈ upserted (trace_of h (add_documents self documents embeddings) w) ->
  exists (i : nat) (doc : Document),
    documents !! i = Some doc
    /\ embeddings !! i = Some (point_vector p)
    /\ point_vector p <> []
    /\ point_payload p = make_payload i doc.
Proof.
  intros Hp.
  destruct (add_documents_upserted h w self documents embeddings)
    as [_ Hup].
  rewrite Hup in Hp.
  apply elem_of_lookup_zip_with in Hp as (j & id & [[i doc] emb] & -> & _ & Hv).
  apply list_elem_of_lookup_2, valid_pairs_lookup in Hv as (_ & Hl & Hne).
  apply lookup_zip_with_Some in Hl as (d & e & Heq & Hd & He).
  injection Heq as -> ->. rewrite Nat.sub_0_r in Hd, He.
  exists i, d. done.
Qed.

(** The vectors of the valid pairs, and of the points made from them. *)
Lemma valid_pairs_vectors (documents : list Document) :
  forall (embeddings : list (list float)) (i : nat),
    (fun v : nat * Document * list float => v.2)
      <$> valid_pairs i (zip documents embeddings)
    = filter (fun e => e <> []) (take (length documents) embeddings).
Proof.
  induction documents as [|doc documents IH]; intros embeddings i; [done|].
  destruct embeddings as [|embedding embeddings]; [done|].
  cbn [zip_with valid_pairs length take].
  destruct embedding as [|x embedding].
  - rewrite filter_cons_False by (by intros ?). apply IH.
  - rewrite filter_cons_True by done. cbn. f_equal. apply IH.
Qed.

Lemma make_point_vectors (ids : list string) :
  forall vs : list (nat * Document * list float),
    length ids = length vs ->
    point_vector <$> zip_with make_point ids vs
    = (fun v : nat * Document * list float => v.2) <$> vs.
Proof.
  induction ids as [|id ids IH]; intros [|v vs] Hlen; try done.
  cbn. f_equal. apply IH. by injection Hlen.
Qed.


(** ** Runs of the read operations *)

Lemma lacks_content_KeyError (rs : list ScoredPoint) :
  forall acc : list Document,
    Exists lacks_content rs ->
    exists e, results_to_documents rs acc = Raise e
              /\ (Forall (fun r => lacks_content r \/ well_formed r) rs ->
                  e = KeyError "content").
Proof.
  induction rs as [|r rs IH]; intros acc Hex; [by inversion Hex|].
  cbn [results_to_documents]. unfold result_to_document.
  destruct (scored_payload r) as [payload|] eqn:Hp; simpl.
  2: { eexists. split; [done|]. intros Hall.
       inversion Hall as [|? ? [(? & ? & _)|(? & ? & ? & _)]]; congruence. }
  destruct (payload !! "content") as [content|] eqn:Hc; simpl.
  2: { eexists. by split. }
  assert (Exists lacks_content rs) as Hrest.
  { inversion Hex as [? ? (p & Hp' & Hc')|]; subst; [congruence|done]. }
  destruct content as [| | | |s]; simpl;
    try (eexists; split; [done|]; intros Hall;
         inversion Hall as [|? ? [(? & ? & ?)|(? & ? & ? & ?)]]; congruence).
  match goal with
  | |- context [results_to_documents rs (acc ++ [?d])] =>
      destruct (IH (acc ++ [d]) Hrest) as (e & He & Hkey)
  end.
  exists e. split; [exact He|]. intros Hall. apply Hkey.
  by inversion Hall.
Qed.

(** A run of [similarity_search] on a query that is not empty.  When the
    filter mapping has a refused value, nothing is asked of the service:
    the [except] branch prints and the empty list is returned.  Otherwise
    there is one [query_points] request, then either the Documents, or the
    line of the [except] branch and the empty list. *)
Lemma similarity_search_run {W} (h : handler W) (w : W)
    (self : QdrantVectorStore) (query_embedding : list float) (k : Z)
    (filter_dict : option (gmap string pyval)) :
  query_embedding <> [] ->
  let p := similarity_search self query_embedding k filter_dict in
  let line e :=
    Entry (Print ("Error performing similarity search: " +:+ str e)) tt in
  (refused filter_dict
   /\ outcome h p w = inr []
   /\ trace_of h p w = [line (ValidationError "MatchValue")])
  \/ (~ refused filter_dict
      /\ exists r : exn + QueryResponse,
           let request :=
             Entry (QueryPoints (collection_name self) query_embedding
                      (query_filter_of filter_dict) k) r in
           let failed e :=
             outcome h p w = inr []
             /\ trace_of h p w = [request; line e] in
           match r with
           | inl e => failed e
           | inr resp =>
               (exists ds, Forall2 stands_for ds (points resp)
                           /\ outcome h p w = inr ds
                           /\ trace_of h p w = [request])
               \/ (exists e, results_to_documents (points resp) [] = Raise e
                            /\ failed e)
           end).
Proof.
  intros Hq p line. subst p line.
  unfold trace_of, outcome, similarity_search.
  destruct query_embedding as [|x q]; [done|].
  destruct (make_query_filter_cases filter_dict) as [[Href ->]|[Hok ->]].
  { left. split; [done|]. run_exec. answer h. by destruct r. }
  right. split; [done|]. run_exec.
  destruct (h _ (QueryPoints (collection_name self) (x :: q)
                   (query_filter_of filter_dict) k) w) as [r w1].
  exists r. destruct r as [e|resp]; run_exec.
  - answer h. by destruct r.
  - destruct (results_to_documents_cases (points resp) [])
      as [(ds & -> & Hds)|(e & He)].
    + left. exists ds. done.
    + right. exists e. rewrite He. run_exec. answer h. by destruct r.
Qed.

(** The dict of a scrolled point has exactly five keys. *)
Lemma record_to_dict_dom (p : Record_) (d : gmap string pyval) :
  record_to_dict p = Ret d ->
  dom d = ({["id"; "content"; "source_type"; "source_name"; "chunk_id"]}
             : gset string)
  /\ d !! "id" = Some (record_id p).
Proof.
  unfold record_to_dict. destruct (record_payload p) as [payload|]; [|done].
  simpl. intros [= <-]. split; [|by simplify_map_eq].
  rewrite !dom_insert_L, dom_empty_L. set_solver.
Qed.

(** A run of [get_documents_by_session]: one [scroll] request with the
    session filter and the limit 1000, then a dict per point, or the line
    of the [except] branch and the empty list. *)
Lemma get_documents_by_session_run {W} (h : handler W) (w : W)
    (self : QdrantVectorStore) (session_id : string) :
  let p := get_documents_by_session self session_id in
  exists r : exn + (list Record_ * option pyval),
    let request :=
      Entry (Scroll (collection_name self) (session_filter session_id) 1000)
        r in
    let failed e :=
      outcome h p w = inr []
      /\ trace_of h p w =
           [request;
            Entry (Print ("Error getting documents by session: " +:+ str e))
              tt] in
    match r with
    | inl e => failed e
    | inr (ps, _) =>
        (exists ds, Forall2 (fun d p => record_to_dict p = Ret d) ds ps
                    /\ outcome h p w = inr ds
                    /\ trace_of h p w = [request])
        \/ (exists e, failed e)
    end.
Proof.
  intros p. subst p. unfold trace_of, outcome, get_documents_by_session.
  run_exec.
  destruct (h _ (Scroll (collection_name self) (session_filter session_id)
                   1000) w) as [r w1].
  exists r. destruct r as [e|[ps next]]; run_exec.
  - answer h. by destruct r.
  - destruct (records_to_dicts_cases ps []) as [(ds & -> & Hds)|(e & ->)].
    + left. exists ds. done.
    + right. exists e. run_exec. answer h. by destruct r.
Qed.

(** ** The conditions of a filter *)

Lemma conditions_of_spec (d : gmap string pyval) :
  length (conditions_of (map_to_list d)) = size d
  /\ (forall key v,
        mkFieldCondition key (mkMatchValue v) ∈ conditions_of (map_to_list d)
        <-> d !! key = Some v).
Proof.
  unfold conditions_of. split.
  - by rewrite length_fmap, length_map_to_list.
  - intros key v. rewrite list_elem_of_fmap. split.
    + intros ([key' v'] & [= -> ->] & Hin). by apply elem_of_map_to_list.
    + intros Hl. exists (key, v). split; [done|].
      by apply elem_of_map_to_list.
Qed.

(** A payload that satisfies the conditions made from a dict has every
    entry of the dict. *)
Lemma conditions_of_hold (d : gmap string pyval)
    (payload : option (gmap string pyval)) :
  filter_holds (mkFilter (conditions_of (map_to_list d))) payload ->
  forall key v, d !! key = Some v ->
    exists fields, payload = Some fields /\ fields !! key = Some v.
Proof.
  unfold filter_holds. cbn [must]. rewrite Forall_forall.
  intros Hall key v Hl.
  apply (proj2 (conditions_of_spec d)) in Hl. apply Hall in Hl.
  unfold condition_holds in Hl. cbn in Hl.
  destruct payload as [fields|]; [|done]. by exists fields.
Qed.

Lemma query_filter_of_nonempty (d : gmap string pyval) :
  d <> ∅ ->
  query_filter_of (Some d) = Some (mkFilter (conditions_of (map_to_list d))).
Proof. intros Hd. unfold query_filter_of. by rewrite bool_decide_eq_false_2. Qed.

(** ** Setup *)

(** A store that [__init__] returns has dimensionality 768, and a
    collection it created was created for that store, with 768 and the
    cosine distance. *)
Lemma init_vector_size {W} (h : handler W) (w : W)
    (self : QdrantVectorStore) :
  outcome h __init__ w = inr self ->
  vector_size self = 768
  /\ Forall (fun c => c = (collection_name self, mkVectorParams 768 COSINE))
       (created_collections (trace_of h __init__ w)).
Proof.
  unfold trace_of, outcome.
  set (P := fun x : (exn + QdrantVectorStore) * W * trace =>
    x.1.1 = inr self ->
    vector_size self = 768
    /\ Forall (fun c => c = (collection_name self, mkVectorParams 768 COSINE))
         (created_collections x.2)).
  change (P (exec h __init__ w)).
  unfold __init__, getenv_default.
  unfold _ensure_collection_exists, ensure_payload_index.
  crunch h; subst P; cbn; intros [= <-]; split; try done;
    repeat constructor.
Qed.

(** * The claims *)

(** C1 (fail-soft).  For every runtime operation ([add_documents],
    [similarity_search], [get_documents_by_session], [delete_by_session],
    [get_collection_info]) and every environment: if a call on the client
    raised during the run, the operation did not raise; it returned the
    empty or negative value of its result type. *)
Theorem operation_failure_is_fail_soft {W} (h : handler W) (w : W)
    (self : QdrantVectorStore) (op : operation) :
  client_errors (trace_of h (run self op) w) <> [] ->
  outcome h (run self op) w = inr (empty_result op).
Proof.
  unfold trace_of, outcome.
  destruct op as [documents embeddings|q k f|sid|sid|]; cbn [run empty_result].
  - unfold add_documents, mbind, prog_bind.
    rewrite exec_bind, exec_try_except, exec_bind.
    destruct (exec_build_points h (zip documents embeddings) 0%nat [] w)
      as (ids & w' & -> & _).
    rewrite app_nil_l.
    destruct (zip_with make_point ids _) as [|p pts].
    + run_exec. answer h. done.
    + run_exec. answer h. destruct r as [e|[]].
      * run_exec. answer h. done.
      * run_exec. answer h. cbn [fst snd].
        rewrite !client_errors_app, client_errors_uuids. done.
  - unfold similarity_search, mbind, prog_bind.
    rewrite exec_bind, exec_try_except.
    destruct q as [|x q]; [done|].
    destruct (make_query_filter_cases f) as [[_ ->]|[_ ->]].
    { run_exec. answer h. done. }
    run_exec. answer h. destruct r as [e|resp].
    + run_exec. answer h. done.
    + cbn.
      destruct (results_to_documents_cases (points resp) [])
        as [(ds & -> & _)|(e & ->)]; cbn; [done|].
      answer h. done.
  - unfold get_documents_by_session, mbind, prog_bind.
    rewrite exec_bind, exec_try_except.
    run_exec. answer h. destruct r as [e|[ps next]].
    + run_exec. answer h. done.
    + cbn.
      destruct (records_to_dicts_cases ps [])
        as [(ds & -> & _)|(e & ->)]; cbn; [done|].
      answer h. done.
  - unfold delete_by_session, mbind, prog_bind.
    rewrite exec_bind, exec_try_except.
    run_exec. answer h. destruct r as [e|[]].
    + run_exec. answer h. done.
    + run_exec. answer h. done.
  - unfold get_collection_info, mbind, prog_bind.
    rewrite exec_bind, exec_try_except.
    run_exec. answer h. destruct r as [e|info].
    + run_exec. answer h. done.
    + cbn. destruct (vectors info); cbn; [done| |]; answer h; done.
Qed.

Lemma operation_failure_is_fail_soft_witness :
  let down := fresh (Unreachable (Exn "ResponseHandlingException" "refused")) in
  outcome mock_handler
    (run store (AddDocuments [chat_doc "a" "s1"] [short_embedding])) down
    = inr (Flag false)
  /\ outcome mock_handler
       (run store (SimilaritySearch short_embedding 5 None)) down
     = inr (Documents [])
  /\ outcome mock_handler (run store (GetDocumentsBySession "s1")) down
     = inr (Dicts [])
  /\ outcome mock_handler (run store (DeleteBySession "s1")) down
     = inr (Flag false)
  /\ outcome mock_handler (run store GetCollectionInfo) down = inr (Dict ∅).
Proof.
  intros down. split; [|split; [|split; [|split]]].
  - apply (operation_failure_is_fail_soft mock_handler down store
             (AddDocuments [chat_doc "a" "s1"] [short_embedding])).
    vm_compute. discriminate.
  - apply (operation_failure_is_fail_soft mock_handler down store
             (SimilaritySearch short_embedding 5 None)).
    vm_compute. discriminate.
  - apply (operation_failure_is_fail_soft mock_handler down store
             (GetDocumentsBySession "s1")).
    vm_compute. discriminate.
  - apply (operation_failure_is_fail_soft mock_handler down store
             (DeleteBySession "s1")).
    vm_compute. discriminate.
  - apply (operation_failure_is_fail_soft mock_handler down store
             GetCollectionInfo).
    vm_compute. discriminate.
Defined.

(** C2, as stated, fails: an index creation that fails for a reason other
    than "already exists" is not fatal.  With a service whose
    [create_payload_index] times out, both index requests raise, neither
    message speaks of "already exists", and [__init__] returns the store. *)
Lemma index_failure_is_not_fatal :
  let timeout := Exn "ResponseHandlingException" "timed out" in
  let m := fresh (IndexFault timeout) in
  index_answers (trace_of mock_handler __init__ m)
    = [("session_id", inl timeout); ("source_type", inl timeout)]
  /\ says_already_exists timeout = false
  /\ outcome mock_handler __init__ m = inr store
  /\ outcome mock_handler __init__ m <> inl timeout.
Proof. vm_compute. repeat split; discriminate. Qed.

(** C2 (amended).  During [__init__], a failure of the client constructor
    is raised to the caller with nothing printed and nothing asked of the
    service; a failure of the collection listing or of the collection
    creation is raised to the caller after the one line [Error ensuring
    collection exists: ...] with [str(e)] is printed.  A failure of an
    index creation never is raised: when none of the former failed,
    [__init__] returns the store whatever the two index requests (for
    [session_id] and [source_type]) answered, and it printed one line per
    created collection and, per index request, the line of [index_log]:
    nothing for "already exists", [str(e)] for any other failure. *)
Theorem setup_failures {W} (h : handler W) (w : W) :
  let t := trace_of h __init__ w in
  (forall e, e ∈ fatal_errors t -> outcome h __init__ w = inl e)
  /\ (forall e,
        e ∈ constructor_errors t ->
        outcome h __init__ w = inl e /\ printed t = [] /\ requests t = [])
  /\ (forall e,
        e ∈ ensure_errors t ->
        outcome h __init__ w = inl e
        /\ printed t = ["Error ensuring collection exists: " +:+ str e])
  /\ (fatal_errors t = [] ->
      (exists self, outcome h __init__ w = inr self)
      /\ (index_answers t).*1 = ["session_id"; "source_type"]
      /\ printed t =
           ((fun c => "Created collection: " +:+ c.1)
              <$> created_collections t)
           ++ concat (index_log <$> index_answers t)).
Proof.
  unfold trace_of, outcome.
  set (P := fun x : (exn + QdrantVectorStore) * W * trace =>
    (forall e, e ∈ fatal_errors x.2 -> x.1.1 = inl e)
    /\ (forall e,
          e ∈ constructor_errors x.2 ->
          x.1.1 = inl e /\ printed x.2 = [] /\ requests x.2 = [])
    /\ (forall e,
          e ∈ ensure_errors x.2 ->
          x.1.1 = inl e
          /\ printed x.2 = ["Error ensuring collection exists: " +:+ str e])
    /\ (fatal_errors x.2 = [] ->
        (exists self, x.1.1 = inr self)
        /\ (index_answers x.2).*1 = ["session_id"; "source_type"]
        /\ printed x.2 =
             ((fun c => "Created collection: " +:+ c.1)
                <$> created_collections x.2)
             ++ concat (index_log <$> index_answers x.2))).
  change (P (exec h __init__ w)).
  unfold __init__, getenv_default.
  unfold _ensure_collection_exists, ensure_payload_index.
  crunch h; subst P; cbn; unfold index_log, says_already_exists; cbn;
    repeat match goal with
           | H : contains _ _ = _ |- _ => rewrite H; clear H
           end;
    (split; [|split; [|split]]);
    try (intros e' He';
         first [ by apply elem_of_nil in He'
               | by apply list_elem_of_singleton in He' as -> ]);
    first [ by intros [=] | intros _; eauto ].
Qed.

Lemma setup_failures_witness :
  let boom := Exn "UnexpectedResponse" "500 Internal Server Error" in
  (outcome mock_handler __init__ (fresh (CreateFault boom)) = inl boom
   /\ printed (trace_of mock_handler __init__ (fresh (CreateFault boom)))
      = ["Error ensuring collection exists: 500 Internal Server Error"])
  /\ exists self, outcome mock_handler __init__ ready = inr self.
Proof.
  intros boom. split.
  - apply (proj1 (proj2 (proj2
             (setup_failures mock_handler (fresh (CreateFault boom)))))).
    vm_compute. apply list_elem_of_here.
  - apply (proj2 (proj2 (proj2 (setup_failures mock_handler ready)))).
    vm_compute. reflexivity.
Defined.

(** C3, as stated, fails: [add_documents] does not look at the length of an
    embedding.  A pair whose embedding has two components is upserted as a
    point with that two-component vector, in a store whose dimensionality
    is 768. *)
Lemma short_vector_is_upserted :
  let t := trace_of mock_handler
             (add_documents store [chat_doc "a" "s1"] [short_embedding])
             ready in
  outcome mock_handler __init__ ready = inr store
  /\ vector_size store = 768
  /\ point_vector <$> upserted t = [short_embedding]
  /\ length short_embedding = 2%nat.
Proof. vm_compute. done. Qed.

(** C3 (amended).  The dimensionality of a store is fixed at 768 when
    [__init__] builds it, and it is used only in the request that creates
    the collection: no runtime operation depends on it.  [add_documents]
    does not look at the length of an embedding: each point it upserts was
    built for a position of the input and carries the embedding at that
    position, not empty and unchanged, and the upserted vectors are the
    caller's paired embeddings that are not empty, in order.  So every
    upserted vector has length 768 provided every embedding the caller
    passes is empty (and skipped) or has length 768. *)
Theorem upserted_vectors_have_the_callers_length {W} (h : handler W)
    (w0 w : W) (self : QdrantVectorStore) (documents : list Document)
    (embeddings : list (list float)) :
  outcome h __init__ w0 = inr self ->
  let t := trace_of h (add_documents self documents embeddings) w in
  vector_size self = 768
  /\ Forall (fun c => c = (collection_name self, mkVectorParams 768 COSINE))
       (created_collections (trace_of h __init__ w0))
  /\ (forall op n,
        run (mkQdrantVectorStore (collection_name self) n) op = run self op)
  /\ point_vector <$> upserted t
     = filter (fun e => e <> []) (take (length documents) embeddings)
  /\ Forall (fun p =>
       exists (i : nat) (doc : Document),
         documents !! i = Some doc
         /\ point_payload p = make_payload i doc
         /\ embeddings !! i = Some (point_vector p)
         /\ point_vector p <> [])
       (upserted t)
  /\ (Forall (fun e => e = [] \/ Z.of_nat (length e) = 768) embeddings ->
      Forall (fun p => Z.of_nat (length (point_vector p)) = vector_size self)
        (upserted t)).
Proof.
  intros Hinit t.
  destruct (init_vector_size h w0 self Hinit) as [Hsize Hcreated].
  destruct (add_documents_upserted h w self documents embeddings)
    as [Hlen Hup].
  fold t in Hlen, Hup.
  split; [done|]. split; [done|]. split; [by destruct self, op|].
  split; [|split].
  - rewrite Hup, <- (valid_pairs_vectors documents embeddings 0).
    by apply make_point_vectors.
  - apply Forall_forall. intros p Hp.
    apply upserted_point in Hp as (i & doc & Hdoc & Hemb & Hne & Hpay).
    by exists i, doc.
  - intros Hdim. apply Forall_forall. intros p Hp.
    apply upserted_point in Hp as (i & doc & _ & Hemb & Hne & _).
    apply list_elem_of_lookup_2 in Hemb as Hin.
    rewrite Forall_forall in Hdim.
    destruct (Hdim _ Hin) as [?|Hdim']; [done|]. by rewrite Hsize.
Qed.

Lemma upserted_vectors_have_the_callers_length_witness :
  let wide := replicate 768 0.5%float in
  Forall (fun p => Z.of_nat (length (point_vector p)) = vector_size store)
    (upserted
       (trace_of mock_handler
          (add_documents store
             [chat_doc "a" "s1"; chat_doc "b" "s1"; chat_doc "c" "s2"]
             [wide; []; wide])
          ready)).
Proof.
  intros wide.
  assert (outcome mock_handler __init__ ready = inr store) as Hinit
    by (vm_compute; reflexivity).
  apply (upserted_vectors_have_the_callers_length mock_handler ready ready
           store
           [chat_doc "a" "s1"; chat_doc "b" "s1"; chat_doc "c" "s2"]
           [wide; []; wide] Hinit).
  constructor; [right; vm_compute; reflexivity|].
  constructor; [left; reflexivity|].
  constructor; [right; vm_compute; reflexivity|].
  constructor.
Defined.

(** C4.  [add_documents] on N positional pairs of which M have an empty
    embedding, in an environment whose [uuid4] does not repeat itself
    during the run: the pairs with an empty embedding are skipped, exactly
    N - M points are built and handed to the service (in one [upsert]
    call, when there is any), the identifier of each point is a draw of
    [uuid4] made for it, so the identifiers are pairwise distinct, and each
    point sits at a position [i] of the input, carries the embedding at
    [i], and has a payload with exactly the keys [content], [source_type],
    [source_name], [session_id], [chunk_id], filled from the document at
    [i], with [chunk_id] being [i] when the metadata have none. *)
Theorem add_documents_builds_a_point_per_valid_pair {W} (h : handler W)
    (w : W) (self : QdrantVectorStore) (documents : list Document)
    (embeddings : list (list float)) :
  let pairs := zip documents embeddings in
  let t := trace_of h (add_documents self documents embeddings) w in
  NoDup (drawn t) ->
  length (upserted t) = (length pairs - empty_count pairs)%nat
  /\ (upserted t <> [] ->
      upsert_calls t = [(collection_name self, upserted t)])
  /\ point_id <$> upserted t = drawn t
  /\ NoDup (point_id <$> upserted t)
  /\ Forall (fun p =>
       exists (i : nat) (doc : Document),
         documents !! i = Some doc
         /\ embeddings !! i = Some (point_vector p)
         /\ point_vector p <> []
         /\ dom (point_payload p) =
              ({["content"; "source_type"; "source_name"; "session_id";
                 "chunk_id"]} : gset string)
         /\ point_payload p !! "content" = Some (PyStr (page_content doc))
         /\ point_payload p !! "source_type"
            = Some (dict_get (metadata doc) "source_type")
         /\ point_payload p !! "source_name"
            = Some (dict_get (metadata doc) "source_name")
         /\ point_payload p !! "session_id"
            = Some (dict_get (metadata doc) "session_id")
         /\ point_payload p !! "chunk_id"
            = Some (default (PyInt (Z.of_nat i)) (metadata doc !! "chunk_id")))
       (upserted t).
Proof.
  intros pairs t Hfresh.
  destruct (add_documents_upserted h w self documents embeddings)
    as [Hlen Hup].
  destruct (add_documents_run h w self documents embeddings)
    as (ids & _ & Hd & Hcalls & _).
  fold t in Hlen, Hup, Hd, Hcalls. fold pairs in Hlen, Hup, Hcalls.
  assert (point_id <$> upserted t = drawn t) as Hids.
  { rewrite Hup. apply fmap_zip_with_l; [done|lia]. }
  split; [|split; [|split; [|split]]].
  - rewrite Hup, length_zip_with, Hlen, Nat.min_id.
    apply valid_pairs_length.
  - intros Hne. rewrite Hcalls. rewrite <- Hd, <- Hup.
    by destruct (upserted t).
  - done.
  - by rewrite Hids.
  - apply Forall_forall. intros p Hp.
    apply upserted_point in Hp as (i & doc & Hdoc & Hemb & Hne & ->).
    pose proof (make_payload_lookup i doc) as (? & ? & ? & ? & ?).
    exists i, doc. by rewrite make_payload_dom.
Qed.

Lemma add_documents_builds_a_point_per_valid_pair_witness :
  let t := trace_of mock_handler
             (add_documents store
                [chat_doc "a" "s1"; chat_doc "b" "s1"; chat_doc "c" "s2"]
                [short_embedding; []; short_embedding])
             ready in
  length (upserted t) = (3 - 1)%nat
  /\ point_id <$> upserted t = ["uuid-0"; "uuid-1"]
  /\ NoDup (point_id <$> upserted t).
Proof.
  intros t.
  assert (NoDup (drawn t)) as Hfresh.
  { apply (bool_decide_unpack _). vm_compute. exact I. }
  destruct (add_documents_builds_a_point_per_valid_pair mock_handler ready
              store
              [chat_doc "a" "s1"; chat_doc "b" "s1"; chat_doc "c" "s2"]
              [short_embedding; []; short_embedding] Hfresh)
    as (Hlen & _ & Hids & Hnodup & _).
  split; [exact Hlen|]. split; [exact Hids|exact Hnodup].
Defined.

(** C5.  When no valid point results, because the document list is empty
    or every embedding is empty, [add_documents] returns [False] and makes
    no [upsert] call, nor any other request to the service. *)
Theorem add_documents_without_valid_point {W} (h : handler W) (w : W)
    (self : QdrantVectorStore) (documents : list Document)
    (embeddings : list (list float)) :
  let t := trace_of h (add_documents self documents embeddings) w in
  documents = [] \/ Forall (fun e => e = []) embeddings ->
  outcome h (add_documents self documents embeddings) w = inr false
  /\ upsert_calls t = []
  /\ requests t = [].
Proof.
  intros t Hnone.
  assert (valid_pairs 0 (zip documents embeddings) = []) as Hvs.
  { destruct Hnone as [->|Hall]; [done|].
    apply valid_pairs_all_empty.
    unfold zip. eapply Forall_zip_with_snd; [|exact Hall].
    apply Forall_true. by intros d e ->. }
  destruct (add_documents_run h w self documents embeddings)
    as (ids & _ & _ & Hcalls & _ & Hempty).
  fold t in Hcalls, Hempty. destruct (Hempty Hvs) as [Hout Hreq].
  rewrite Hvs, zip_with_nil_r in Hcalls. done.
Qed.

Lemma add_documents_without_valid_point_witness :
  (outcome mock_handler (add_documents store [] [short_embedding]) ready
     = inr false
   /\ upsert_calls
        (trace_of mock_handler (add_documents store [] [short_embedding])
           ready) = [])
  /\ (outcome mock_handler
        (add_documents store [chat_doc "a" "s1"; chat_doc "b" "s1"] [[]; []])
        ready = inr false
      /\ upsert_calls
           (trace_of mock_handler
              (add_documents store [chat_doc "a" "s1"; chat_doc "b" "s1"]
                 [[]; []])
              ready) = []).
Proof.
  split.
  - destruct (add_documents_without_valid_point mock_handler ready store []
                [short_embedding]) as (Hout & Hcalls & _);
      [by left|by split].
  - destruct (add_documents_without_valid_point mock_handler ready store
                [chat_doc "a" "s1"; chat_doc "b" "s1"] [[]; []])
      as (Hout & Hcalls & _); [right; by repeat constructor|by split].
Defined.

(** C6.  A [similarity_search] that succeeded (its [try] block completed,
    so nothing was printed) either had an empty query and returned the
    empty list, or returns one Document per point of the service's answer,
    in the order of the answer: the Document at each position stands for
    the point at that position, with the payload's [content] as content and
    with the payload fields [source_type], [source_name], [session_id],
    [chunk_id] and the point's score as metadata. *)
Theorem similarity_search_keeps_order {W} (h : handler W) (w : W)
    (self : QdrantVectorStore) (query_embedding : list float) (k : Z)
    (filter_dict : option (gmap string pyval)) :
  let p := similarity_search self query_embedding k filter_dict in
  printed (trace_of h p w) = [] ->
  (query_embedding = [] /\ outcome h p w = inr [] /\ trace_of h p w = [])
  \/ (exists resp docs,
        query_answers (trace_of h p w) = [resp]
        /\ outcome h p w = inr docs
        /\ Forall2 stands_for docs (points resp)
        /\ (forall i doc,
              docs !! i = Some doc ->
              exists r payload,
                points resp !! i = Some r
                /\ scored_payload r = Some payload
                /\ payload !! "content" = Some (PyStr (page_content doc))
                /\ metadata doc !! "source_type"
                   = Some (dict_get payload "source_type")
                /\ metadata doc !! "source_name"
                   = Some (dict_get payload "source_name")
                /\ metadata doc !! "session_id"
                   = Some (dict_get payload "session_id")
                /\ metadata doc !! "chunk_id"
                   = Some (dict_get payload "chunk_id")
                /\ metadata doc !! "score" = Some (PyFloat (score r)))).
Proof.
  intros p Hquiet.
  destruct (decide (query_embedding = [])) as [->|Hq]; [by left|right].
  destruct (similarity_search_run h w self query_embedding k filter_dict Hq)
    as [(_ & _ & Ht)|(_ & r & Hrun)]; fold p in Ht || fold p in Hrun.
  { rewrite Ht in Hquiet. done. }
  cbv zeta in Hrun.
  destruct r as [e|resp].
  - destruct Hrun as [_ Ht]. rewrite Ht in Hquiet. done.
  - destruct Hrun as [(ds & Hds & Hout & Ht)|(e & _ & _ & Ht)].
    2: { rewrite Ht in Hquiet. done. }
    exists resp, ds. rewrite Ht. repeat split; [done..|].
    intros i doc Hdoc.
    destruct (Forall2_lookup_l _ _ _ _ _ Hds Hdoc)
      as (r & Hr & payload & Hp & Hc & Hm).
    exists r, payload. rewrite Hm. repeat split; try done;
      by simplify_map_eq.
Qed.

(** C7, as stated, fails for a filter value that [MatchValue] refuses
    ([None] or a float): the mapping is not translated into conditions,
    because building the filter raises; no request is made, the error is
    printed and the empty list is returned. *)
Lemma refused_filter_value_sends_no_request :
  let no_session : gmap string pyval := {["session_id" := PyNone]} in
  let p := similarity_search store short_embedding 5 (Some no_session) in
  size no_session = 1%nat
  /\ requests (trace_of mock_handler p stocked) = []
  /\ outcome mock_handler p stocked = inr []
  /\ printed (trace_of mock_handler p stocked)
     = ["Error performing similarity search: "
        +:+ str (ValidationError "MatchValue")].
Proof. vm_compute. done. Qed.

(** C7 (amended).  [similarity_search] with a filter mapping that is not
    empty and a query that is not empty: when every value of the mapping is
    a bool, an int or a str, it sends one request whose filter has, under
    [must], exactly one equality condition per entry of the mapping; when
    some value is refused, it sends no request, prints the error and
    returns the empty list.  In every case, when the service keeps to the
    filter it was sent, every point of its answer has every entry of the
    mapping in its payload, and every Document returned shows the value of
    the mapping for each of the payload fields it carries; so a filter
    [session_id = s] returns Documents of session [s] only. *)
Theorem similarity_search_filter {W} (h : handler W) (w : W)
    (self : QdrantVectorStore) (query_embedding : list float) (k : Z)
    (filter_dict : gmap string pyval) :
  let p := similarity_search self query_embedding k (Some filter_dict) in
  let t := trace_of h p w in
  filter_dict <> ∅ ->
  Forall honours_filter t ->
  (query_embedding <> [] ->
   (forall key v,
      filter_dict !! key = Some v -> valid_match_value v = true) ->
   exists r conditions,
     requests t =
       [Entry (QueryPoints (collection_name self) query_embedding
                 (Some (mkFilter conditions)) k) r]
     /\ length conditions = size filter_dict
     /\ forall key v,
          mkFieldCondition key (mkMatchValue v) ∈ conditions
          <-> filter_dict !! key = Some v)
  /\ (query_embedding <> [] ->
      refused (Some filter_dict) ->
      requests t = []
      /\ outcome h p w = inr []
      /\ printed t = ["Error performing similarity search: "
                      +:+ str (ValidationError "MatchValue")])
  /\ (forall resp,
        resp ∈ query_answers t ->
        Forall (fun point =>
                  forall key v,
                    filter_dict !! key = Some v ->
                    exists payload,
                      scored_payload point = Some payload
                      /\ payload !! key = Some v)
          (points resp))
  /\ exists docs,
       outcome h p w = inr docs
       /\ Forall (fun doc =>
                    forall key v,
                      filter_dict !! key = Some v ->
                      key ∈ ["source_type"; "source_name"; "session_id";
                             "chunk_id"] ->
                      metadata doc !! key = Some v)
            docs.
Proof.
  intros p t Hd Hhon. subst t.
  destruct (decide (query_embedding = [])) as [->|Hq].
  { split; [done|]. split; [done|].
    split; [by intros resp ?%elem_of_nil|]. by exists []. }
  destruct (similarity_search_run h w self query_embedding k
              (Some filter_dict) Hq) as [(Href & Hout & Ht)|(Hok & r & Hrun)];
    fold p in Hout, Ht || fold p in Hrun.
  { rewrite Ht. split; [|split; [|split]].
    - intros _ Hvalid. destruct Href as (d & key & v & [= <-] & Hl & Hv).
      rewrite (Hvalid _ _ Hl) in Hv. done.
    - done.
    - by intros resp ?%elem_of_nil.
    - by exists []. }
  cbv zeta in Hrun.
  rewrite query_filter_of_nonempty in Hrun by done.
  destruct (conditions_of_spec filter_dict) as [Hlen Hconds].
  assert (forall resp, r = inr resp ->
            Forall honours_filter (trace_of h p w) ->
            Forall (fun point =>
                      forall key v,
                        filter_dict !! key = Some v ->
                        exists payload,
                          scored_payload point = Some payload
                          /\ payload !! key = Some v)
              (points resp)) as Hpoints.
  { intros resp -> Hall.
    assert (Forall (fun point =>
              filter_holds (mkFilter (conditions_of (map_to_list filter_dict)))
                (scored_payload point)) (points resp)) as Hfilter.
    { destruct Hrun as [(ds & _ & _ & Ht)|(e & _ & _ & Ht)];
        rewrite Ht in Hall; by inversion Hall. }
    eapply Forall_impl; [exact Hfilter|].
    intros point Hpoint. by apply conditions_of_hold. }
  split; [|split; [by intros _ ?|]].
  { intros _ _. exists r, (conditions_of (map_to_list filter_dict)).
    split; [|done]. destruct r as [e|resp].
    - destruct Hrun as [_ ->]. done.
    - destruct Hrun as [(ds & _ & _ & ->)|(e & _ & _ & ->)]; done. }
  destruct r as [e|resp].
  - destruct Hrun as [Hout Ht]. rewrite Ht. split.
    + by intros resp ?%elem_of_nil.
    + by exists [].
  - specialize (Hpoints resp eq_refl Hhon).
    destruct Hrun as [(ds & Hds & Hout & Ht)|(e & _ & Hout & Ht)];
      rewrite Ht; split.
    + by intros ? ->%list_elem_of_singleton.
    + exists ds. split; [done|]. apply Forall_forall. intros doc Hdoc.
      apply list_elem_of_lookup in Hdoc as [i Hdoc].
      destruct (Forall2_lookup_l _ _ _ _ _ Hds Hdoc)
        as (point & Hpoint & payload & Hp & _ & Hm).
      apply list_elem_of_lookup_2 in Hpoint.
      rewrite Forall_forall in Hpoints.
      intros key v Hl Hkey.
      destruct (Hpoints point Hpoint key v Hl) as (payload' & Hp' & Hv).
      assert (payload' = payload) as -> by congruence.
      assert (dict_get payload key = v) as Hget
        by (unfold dict_get; by rewrite Hv).
      rewrite Hm.
      repeat (apply elem_of_cons in Hkey as [->|Hkey];
              [rewrite <- Hget; by simplify_map_eq|]).
      by apply elem_of_nil in Hkey.
    + by intros ? ->%list_elem_of_singleton.
    + by exists [].
Qed.

Lemma similarity_search_keeps_order_witness :
  let p := similarity_search store short_embedding 5 None in
  exists resp docs,
    query_answers (trace_of mock_handler p stocked) = [resp]
    /\ outcome mock_handler p stocked = inr docs
    /\ Forall2 stands_for docs (points resp).
Proof.
  intros p.
  assert (printed (trace_of mock_handler p stocked) = []) as Hquiet
    by (vm_compute; reflexivity).
  destruct (similarity_search_keeps_order mock_handler stocked store
              short_embedding 5 None Hquiet)
    as [(Hq & _)|(resp & docs & Hresp & Hout & Hdocs & _)];
    [discriminate Hq|].
  exists resp, docs. split; [exact Hresp|]. split; [exact Hout|exact Hdocs].
Defined.

Lemma similarity_search_filter_witness :
  let only_s1 : gmap string pyval := {["session_id" := PyStr "s1"]} in
  let p := similarity_search store short_embedding 5 (Some only_s1) in
  exists docs,
    outcome mock_handler p stocked = inr docs
    /\ Forall (fun doc => metadata doc !! "session_id" = Some (PyStr "s1"))
         docs.
Proof.
  intros only_s1 p.
  assert (only_s1 <> ∅) as Hd by apply insert_non_empty.
  assert (Forall honours_filter (trace_of mock_handler p stocked)) as Hhon.
  { vm_compute. repeat constructor. }
  destruct (similarity_search_filter mock_handler stocked store
              short_embedding 5 only_s1 Hd Hhon)
    as (_ & _ & _ & docs & Hout & Hdocs).
  exists docs. split; [exact Hout|].
  eapply Forall_impl; [exact Hdocs|].
  intros doc Hdoc. apply Hdoc; [reflexivity|].
  apply list_elem_of_further, list_elem_of_further, list_elem_of_here.
Defined.

(** C8.  [get_documents_by_session] makes one request to the service, a
    [scroll] with the filter [session_id = session_id] and the limit 1000:
    a filtered scan, with no query vector and no ranking.  When the service
    keeps to the limit, at most 1000 records are returned, however many
    points match, and every record is a dict with exactly the keys [id],
    [content], [source_type], [source_name], [chunk_id]. *)
Theorem get_documents_by_session_is_capped {W} (h : handler W) (w : W)
    (self : QdrantVectorStore) (session_id : string) :
  let p := get_documents_by_session self session_id in
  let t := trace_of h p w in
  Forall honours_limit t ->
  (exists r,
     requests t =
       [Entry (Scroll (collection_name self) (session_filter session_id) 1000)
          r])
  /\ exists docs,
       outcome h p w = inr docs
       /\ (length docs <= 1000)%nat
       /\ Forall (fun d =>
                    dom d = ({["id"; "content"; "source_type"; "source_name";
                               "chunk_id"]} : gset string))
            docs.
Proof.
  intros p t Hhon. subst t.
  destruct (get_documents_by_session_run h w self session_id) as (r & Hrun).
  fold p in Hrun. cbv zeta in Hrun.
  destruct r as [e|[ps next]].
  - destruct Hrun as [Hout Ht]. rewrite Ht. split; [by exists (inl e)|].
    exists []. repeat split; [done|simpl; lia|done].
  - destruct Hrun as [(ds & Hds & Hout & Ht)|(e & Hout & Ht)];
      rewrite Ht in Hhon |- *;
      (split; [by exists (inr (ps, next))|]).
    + exists ds. split; [done|]. split.
      * inversion Hhon as [|? ? Hlimit _]. cbn in Hlimit.
        apply Forall2_length in Hds. lia.
      * apply Forall_forall. intros d Hd.
        apply list_elem_of_lookup in Hd as [i Hd].
        destruct (Forall2_lookup_l _ _ _ _ _ Hds Hd) as (pt & _ & Hpt).
        by apply record_to_dict_dom in Hpt as [? _].
    + exists []. repeat split; [done|simpl; lia|done].
Qed.

Lemma get_documents_by_session_is_capped_witness :
  let p := get_documents_by_session store "s1" in
  exists docs,
    outcome mock_handler p stocked = inr docs
    /\ (length docs <= 1000)%nat.
Proof.
  intros p.
  assert (Forall honours_limit (trace_of mock_handler p stocked)) as Hhon.
  { vm_compute. constructor; [discriminate|constructor]. }
  destruct (get_documents_by_session_is_capped mock_handler stocked store
              "s1" Hhon) as (_ & docs & Hout & Hlen & _).
  exists docs. split; [exact Hout|exact Hlen].
Defined.

(** C9.  [add_documents] on lists of different lengths behaves as on the
    first [n] entries of each, with [n] the smaller of the two lengths: it
    is the same program, it does not raise, and every point it hands to the
    service sits at a position below [n]; the surplus entries of the longer
    list produce nothing. *)
Theorem add_documents_ignores_surplus {W} (h : handler W) (w : W)
    (self : QdrantVectorStore) (documents : list Document)
    (embeddings : list (list float)) :
  let n := (length documents `min` length embeddings)%nat in
  let t := trace_of h (add_documents self documents embeddings) w in
  add_documents self documents embeddings
    = add_documents self (take n documents) (take n embeddings)
  /\ (exists b, outcome h (add_documents self documents embeddings) w = inr b)
  /\ (length (upserted t) <= n)%nat
  /\ Forall (fun p =>
       exists i : nat,
         (i < n)%nat /\ is_Some (documents !! i)
         /\ embeddings !! i = Some (point_vector p))
       (upserted t).
Proof.
  intros n t.
  destruct (add_documents_upserted h w self documents embeddings)
    as [Hlen Hup].
  destruct (add_documents_run h w self documents embeddings)
    as (ids & _ & _ & _ & Hout & _).
  fold t in Hlen, Hup.
  split; [|split; [done|split]].
  - assert (zip (take n documents) (take n embeddings)
            = zip documents embeddings) as Hzip
      by (by apply zip_with_take_both').
    unfold add_documents. by rewrite Hzip.
  - rewrite Hup, length_zip_with, Hlen, Nat.min_id, valid_pairs_length.
    pose proof (length_zip_with pair documents embeddings). lia.
  - apply Forall_forall. intros p Hp.
    apply upserted_point in Hp as (i & doc & Hdoc & Hemb & _).
    exists i. split; [|eauto].
    apply lookup_lt_Some in Hdoc, Hemb. lia.
Qed.

(** C10.  When the answer of the service to a [similarity_search] contains
    a point whose payload has no key [content], the mapping loop raises,
    the [except] branch prints the error, and the call returns the empty
    list, whatever well-formed points the answer also holds; when every
    other point of the answer is well formed (its payload is a dict whose
    [content] is a string), what was raised is [KeyError('content')]. *)
Theorem missing_content_empties_the_result {W} (h : handler W) (w : W)
    (self : QdrantVectorStore) (query_embedding : list float) (k : Z)
    (filter_dict : option (gmap string pyval)) (resp : QueryResponse) :
  let p := similarity_search self query_embedding k filter_dict in
  query_answers (trace_of h p w) = [resp] ->
  Exists lacks_content (points resp) ->
  outcome h p w = inr []
  /\ exists e,
       results_to_documents (points resp) [] = Raise e
       /\ printed (trace_of h p w)
          = ["Error performing similarity search: " +:+ str e]
       /\ (Forall (fun r => lacks_content r \/ well_formed r) (points resp) ->
           e = KeyError "content").
Proof.
  intros p Hanswer Hlacks.
  destruct (decide (query_embedding = [])) as [->|Hq]; [done|].
  destruct (similarity_search_run h w self query_embedding k filter_dict Hq)
    as [(_ & _ & Ht)|(_ & r & Hrun)]; fold p in Ht || fold p in Hrun.
  { by rewrite Ht in Hanswer. }
  cbv zeta in Hrun.
  destruct (lacks_content_KeyError (points resp) [] Hlacks)
    as (e & He & Hkey).
  destruct r as [e'|resp'].
  - destruct Hrun as [_ Ht]. rewrite Ht in Hanswer. done.
  - assert (resp' = resp) as ->.
    { destruct Hrun as [(ds & _ & _ & Ht)|(e' & _ & _ & Ht)];
        rewrite Ht in Hanswer; by injection Hanswer. }
    destruct Hrun as [(ds & Hds & _)|(e' & He' & Hout & Ht)].
    + exfalso. clear -Hds Hlacks.
      induction Hds as [|d r ds rs Hd _ IH]; [by inversion Hlacks|].
      inversion Hlacks as [? ? (fields & Hp & Hc)|]; subst; [|auto].
      destruct Hd as (fields' & Hp' & Hc' & _). congruence.
    + assert (e' = e) as -> by congruence.
      split; [done|]. exists e. by rewrite Ht.
Qed.

Lemma missing_content_empties_the_result_witness :
  let p := similarity_search store short_embedding 5 None in
  length (mock_points stocked_foreign) = 4%nat
  /\ outcome mock_handler p stocked_foreign = inr []
  /\ printed (trace_of mock_handler p stocked_foreign)
     = ["Error performing similarity search: 'content'"].
Proof.
  intros p. split; [reflexivity|].
  set (resp := mkQueryResponse
         ((fun pt => mkScoredPoint (PyStr (point_id pt))
                       (Some (point_payload pt)) 1%float)
            <$> mock_points stocked_foreign)).
  assert (query_answers (trace_of mock_handler p stocked_foreign) = [resp])
    as Hanswer by (vm_compute; reflexivity).
  assert (Exists lacks_content (points resp)) as Hlacks.
  { do 3 apply Exists_cons_tl. apply Exists_cons_hd.
    eexists. split; reflexivity. }
  destruct (missing_content_empties_the_result mock_handler stocked_foreign
              store short_embedding 5 None resp Hanswer Hlacks)
    as (Hout & e & _ & Hprinted & Hkey).
  split; [exact Hout|]. subst p.
  rewrite Hprinted, Hkey; [reflexivity|].
  constructor; [right; do 2 eexists; split; reflexivity|].
  constructor; [right; do 2 eexists; split; reflexivity|].
  constructor; [right; do 2 eexists; split; reflexivity|].
  constructor; [left; eexists; split; reflexivity|].
  constructor.
Defined.

(** * Further properties *)

(** ** All runtime operations *)

(** Follow the run of one runtime operation to each of its ends; [leaf]
    closes the goal there. *)
Ltac follow_operation h w op leaf :=
  unfold trace_of, outcome;
  destruct op; cbn [run empty_result error_line];
    [ unfold add_documents, mbind, prog_bind;
      rewrite exec_bind, exec_try_except, exec_bind;
      match goal with
      | |- context [build_points 0 ?pairs []] =>
          destruct (exec_build_points h pairs 0%nat [] w)
            as (? & ? & -> & _)
      end;
      rewrite app_nil_l;
      match goal with
      | |- context [Entry Uuid4 <$> ?ids] =>
          let Hr := fresh "Hrequests" in
          let Hp := fresh "Hprinted" in
          let He := fresh "Herrors" in
          destruct (uuids_trace ids) as (_ & _ & Hr & Hp);
          pose proof (client_errors_uuids ids) as He;
          destruct (zip_with make_point ids _);
          [ run_exec; answer h
          | run_exec; answer h;
            match goal with r : (exn + unit)%type |- _ =>
              destruct r as [?|[]] end;
            run_exec; answer h ];
          cbn [fst snd];
          rewrite ?requests_app, ?printed_app, ?client_errors_app,
            ?Hr, ?Hp, ?He
      end
    | unfold similarity_search, mbind, prog_bind;
      rewrite exec_bind, exec_try_except;
      match goal with q : list float |- _ => destruct q end;
      [ | match goal with
          | |- context [make_query_filter ?f] =>
              destruct (make_query_filter_cases f) as [[_ ->]|[_ ->]]
          end;
          [ run_exec; answer h
          | run_exec; answer h;
            match goal with r : (exn + QueryResponse)%type |- _ =>
              destruct r as [?|?] end;
            [ run_exec; answer h
            | cbn [bind try_except exec];
              match goal with
              | |- context [results_to_documents ?rs []] =>
                  destruct (results_to_documents_cases rs [])
                    as [(? & -> & _)|(? & ->)]
              end;
              [ | cbn [bind try_except exec]; answer h ] ] ] ]
    | unfold get_documents_by_session, mbind, prog_bind;
      rewrite exec_bind, exec_try_except;
      run_exec; answer h;
      match goal with
      | r : (exn + (list Record_ * option pyval))%type |- _ =>
          destruct r as [?|[? ?]]
      end;
      [ run_exec; answer h
      | cbn [bind try_except exec];
        match goal with
        | |- context [records_to_dicts ?ps []] =>
            destruct (records_to_dicts_cases ps [])
              as [(? & -> & _)|(? & ->)]
        end;
        [ | cbn [bind try_except exec]; answer h ] ]
    | unfold delete_by_session, mbind, prog_bind;
      rewrite exec_bind, exec_try_except;
      run_exec; answer h;
      match goal with r : (exn + unit)%type |- _ =>
        destruct r as [?|[]] end;
      run_exec; answer h
    | unfold get_collection_info, mbind, prog_bind;
      rewrite exec_bind, exec_try_except;
      run_exec; answer h;
      match goal with r : (exn + CollectionInfo)%type |- _ =>
        destruct r as [?|?] end;
      [ run_exec; answer h
      | cbn [bind try_except exec];
        match goal with
        | |- context [vectors_size ?v] => destruct v
        end;
        cbn [vectors_size bind try_except exec];
        try answer h ] ];
    cbn; leaf.

(** No runtime operation raises, whatever the environment answers and
    whatever goes wrong inside the operation, and none makes more than one
    request to the service: nothing is retried and nothing is paged. *)
Theorem runtime_operations_return_after_one_request {W} (h : handler W)
    (w : W) (self : QdrantVectorStore) (op : operation) :
  (exists v, outcome h (run self op) w = inr v)
  /\ (length (requests (trace_of h (run self op) w)) <= 1)%nat.
Proof.
  follow_operation h w op ltac:(split; [eauto|simpl; lia]).
Qed.

(** When the one call an operation makes on the client raised [e], the
    operation printed exactly one line: its error message with [str(e)]. *)
Theorem failed_operation_prints_one_line {W} (h : handler W) (w : W)
    (self : QdrantVectorStore) (op : operation) (e : exn) :
  e ∈ client_errors (trace_of h (run self op) w) ->
  client_errors (trace_of h (run self op) w) = [e]
  /\ printed (trace_of h (run self op) w) = [error_line op e].
Proof.
  follow_operation h w op
    ltac:(intros Hin;
          first [ by apply elem_of_nil in Hin
                | by apply list_elem_of_singleton in Hin as -> ]).
Qed.

Lemma failed_operation_prints_one_line_witness :
  let down := fresh (Unreachable (Exn "ResponseHandlingException" "refused")) in
  printed (trace_of mock_handler (run store (DeleteBySession "s1")) down)
    = ["Error deleting session documents: refused"].
Proof.
  intros down.
  apply (failed_operation_prints_one_line mock_handler down store
           (DeleteBySession "s1")
           (Exn "ResponseHandlingException" "refused")).
  vm_compute. apply list_elem_of_here.
Defined.

(** ** similarity_search *)

(** [similarity_search] contacts the service exactly when the query is not
    empty and no value of the filter mapping is refused by [MatchValue]: it
    makes no request if and only if the query is empty or some value of the
    mapping is [None] or a float.  On an empty query it returns the empty
    list at once, with no event at all, whatever [k] and the filter are. *)
Theorem similarity_search_asks_iff_query {W} (h : handler W) (w : W)
    (self : QdrantVectorStore) (query_embedding : list float) (k : Z)
    (filter_dict : option (gmap string pyval)) :
  let p := similarity_search self query_embedding k filter_dict in
  (requests (trace_of h p w) = []
   <-> query_embedding = [] \/ refused filter_dict)
  /\ (query_embedding = [] -> exec h p w = (inr [], w, [])).
Proof.
  intros p. split; [|by intros ->].
  destruct (decide (query_embedding = [])) as [->|Hq];
    [split; [by left|done]|].
  destruct (similarity_search_run h w self query_embedding k filter_dict Hq)
    as [(Href & _ & Ht)|(Hok & r & Hrun)]; fold p in Ht || fold p in Hrun.
  { rewrite Ht. split; [by right|done]. }
  cbv zeta in Hrun. split; [|by intros [?|?]].
  intros Hnone. exfalso. destruct r as [e|resp].
  - destruct Hrun as [_ Ht]. by rewrite Ht in Hnone.
  - destruct Hrun as [(ds & _ & _ & Ht)|(e & _ & _ & Ht)];
      by rewrite Ht in Hnone.
Qed.

(** A filter that is [None] or the empty dict is no filter: for a query
    that is not empty the one request made is [query_points] on the
    store's collection with the query and [k] as given and
    [query_filter=None]. *)
Theorem similarity_search_without_filter {W} (h : handler W) (w : W)
    (self : QdrantVectorStore) (query_embedding : list float) (k : Z)
    (filter_dict : option (gmap string pyval)) :
  query_embedding <> [] ->
  filter_dict = None \/ filter_dict = Some ∅ ->
  exists r,
    requests (trace_of h
                (similarity_search self query_embedding k filter_dict) w)
    = [Entry (QueryPoints (collection_name self) query_embedding None k) r].
Proof.
  intros Hq Hfilter.
  assert (query_filter_of filter_dict = None) as Hnone
    by (by destruct Hfilter as [->| ->]).
  destruct (similarity_search_run h w self query_embedding k filter_dict Hq)
    as [(Href & _)|(_ & r & Hrun)].
  { destruct Href as (d & key & v & -> & Hl & _).
    destruct Hfilter as [?|[= ->]]; [done|]. by rewrite lookup_empty in Hl. }
  cbv zeta in Hrun. rewrite Hnone in Hrun. exists r.
  destruct r as [e|resp].
  - destruct Hrun as [_ ->]. done.
  - destruct Hrun as [(ds & _ & _ & ->)|(e & _ & _ & ->)]; done.
Qed.

Lemma similarity_search_without_filter_witness :
  exists r,
    requests (trace_of mock_handler
                (similarity_search store short_embedding 5 (Some ∅)) stocked)
    = [Entry (QueryPoints "rag_documents" short_embedding None 5) r].
Proof.
  apply (similarity_search_without_filter mock_handler stocked store
           short_embedding 5 (Some ∅)).
  - discriminate.
  - right. reflexivity.
Defined.

(** [similarity_search] passes [k] on as the limit and adds nothing to the
    answer: when the service keeps to the limit of the request, at most [k]
    Documents are returned. *)
Theorem similarity_search_returns_at_most_k {W} (h : handler W) (w : W)
    (self : QdrantVectorStore) (query_embedding : list float) (k : Z)
    (filter_dict : option (gmap string pyval)) :
  let p := similarity_search self query_embedding k filter_dict in
  0 <= k ->
  Forall honours_query_limit (trace_of h p w) ->
  exists docs, outcome h p w = inr docs /\ Z.of_nat (length docs) <= k.
Proof.
  intros p Hk Hhon.
  destruct (decide (query_embedding = [])) as [->|Hq].
  { exists []. split; [done|]. simpl. lia. }
  destruct (similarity_search_run h w self query_embedding k filter_dict Hq)
    as [(_ & Hout & _)|(_ & r & Hrun)]; fold p in Hout || fold p in Hrun.
  { exists []. split; [done|]. simpl. lia. }
  cbv zeta in Hrun.
  destruct r as [e|resp].
  - destruct Hrun as [Hout _]. exists []. split; [done|]. simpl. lia.
  - destruct Hrun as [(ds & Hds & Hout & Ht)|(e & _ & Hout & _)].
    + exists ds. split; [done|]. rewrite Ht in Hhon.
      inversion Hhon as [|? ? Hlimit _]. cbn in Hlimit.
      apply Forall2_length in Hds. lia.
    + exists []. split; [done|]. simpl. lia.
Qed.

Lemma similarity_search_returns_at_most_k_witness :
  let p := similarity_search store short_embedding 2 None in
  exists docs,
    outcome mock_handler p stocked = inr docs /\ Z.of_nat (length docs) <= 2.
Proof.
  intros p.
  apply (similarity_search_returns_at_most_k mock_handler stocked store
           short_embedding 2 None).
  - lia.
  - vm_compute. constructor; [discriminate|constructor].
Defined.

(** ** delete_by_session *)

(** [delete_by_session] makes one request, a [delete] on the store's
    collection selecting by [session_id = session_id]; it returns [True]
    and prints the session when the request returned, and [False] with the
    error line when it raised. *)
Theorem delete_by_session_reports_the_request {W} (h : handler W) (w : W)
    (self : QdrantVectorStore) (session_id : string) :
  let p := delete_by_session self session_id in
  exists r,
    requests (trace_of h p w)
    = [Entry (Delete (collection_name self) (session_filter session_id)) r]
    /\ match r with
       | inr _ =>
           outcome h p w = inr true
           /\ printed (trace_of h p w)
              = ["Deleted documents for session: " +:+ session_id]
       | inl e =>
           outcome h p w = inr false
           /\ printed (trace_of h p w)
              = ["Error deleting session documents: " +:+ str e]
       end.
Proof.
  intros p. subst p. unfold trace_of, outcome, delete_by_session.
  run_exec.
  destruct (h _ (Delete (collection_name self) (session_filter session_id))
              w) as [r w1].
  exists r. destruct r as [e|[]]; run_exec; answer h; done.
Qed.

(** ** get_collection_info *)

(** [get_collection_info] makes one request, [get_collection] on the
    store's collection.  When it returns a collection with a single vector
    configuration, the result has exactly the keys [name], [vector_size]
    and [points_count]: the store's collection name, and the size and the
    count the service reported (not the store's own 768). *)
Theorem get_collection_info_reports_the_service {W} (h : handler W) (w : W)
    (self : QdrantVectorStore) (info : CollectionInfo)
    (params : VectorParams) :
  let p := get_collection_info self in
  info_answers (trace_of h p w) = [info] ->
  vectors info = SingleVector params ->
  (exists r,
     requests (trace_of h p w)
     = [Entry (GetCollection (collection_name self)) r])
  /\ exists d,
       outcome h p w = inr d
       /\ dom d = ({["name"; "vector_size"; "points_count"]} : gset string)
       /\ d !! "name" = Some (PyStr (collection_name self))
       /\ d !! "vector_size" = Some (PyInt (params_size params))
       /\ d !! "points_count" = Some (optional_int (points_count info))
       /\ printed (trace_of h p w) = [].
Proof.
  intros p. subst p. unfold trace_of, outcome, get_collection_info.
  run_exec.
  destruct (h _ (GetCollection (collection_name self)) w) as [r w1].
  destruct r as [e|info']; run_exec.
  { answer h. done. }
  cbn [bind try_except exec].
  destruct (vectors info') as [params'| |] eqn:Hv';
    cbn [vectors_size bind try_except exec]; try answer h;
    cbn [fst snd]; intros [= <-] Hv; try congruence.
  assert (params' = params) as -> by congruence.
  split; [by eexists|]. eexists. split; [done|].
  split; [|by simplify_map_eq].
  cbn [list_to_map foldr uncurry fst snd].
  rewrite !dom_insert_L, dom_empty_L. set_solver.
Qed.

Lemma get_collection_info_reports_the_service_witness :
  exists d,
    outcome mock_handler (get_collection_info store) stocked = inr d
    /\ d !! "vector_size" = Some (PyInt 768)
    /\ d !! "points_count" = Some (PyInt 3).
Proof.
  destruct (get_collection_info_reports_the_service mock_handler stocked
              store
              (mkCollectionInfo (SingleVector (mkVectorParams 768 COSINE))
                 (Some 3))
              (mkVectorParams 768 COSINE))
    as (_ & d & Hout & _ & _ & Hsize & Hcount & _).
  - vm_compute. reflexivity.
  - reflexivity.
  - exists d. split; [exact Hout|]. split; [exact Hsize|exact Hcount].
Defined.

(** ** add_documents *)

(** The vectors [add_documents] hands to the service are the embeddings
    that are not empty among those that have a document at their position,
    in the order of the input. *)
Theorem add_documents_upserts_in_input_order {W} (h : handler W) (w : W)
    (self : QdrantVectorStore) (documents : list Document)
    (embeddings : list (list float)) :
  point_vector
    <$> upserted (trace_of h (add_documents self documents embeddings) w)
  = filter (fun e => e <> []) (take (length documents) embeddings).
Proof.
  destruct (add_documents_upserted h w self documents embeddings)
    as [Hlen Hup].
  rewrite Hup, <- (valid_pairs_vectors documents embeddings 0).
  by apply make_point_vectors.
Qed.

(** [add_documents] returns [True] exactly when it handed at least one
    point to the service and the [upsert] did not raise; it then printed
    the number of points, and when there was no point to hand over it
    printed that instead. *)
Theorem add_documents_returns_true_iff_upserted {W} (h : handler W) (w : W)
    (self : QdrantVectorStore) (documents : list Document)
    (embeddings : list (list float)) :
  let p := add_documents self documents embeddings in
  let t := trace_of h p w in
  (outcome h p w = inr true <-> upserted t <> [] /\ client_errors t = [])
  /\ (outcome h p w = inr true ->
      printed t = ["Successfully added " +:+ pretty (length (upserted t))
                   +:+ " documents to vector store"])
  /\ (upserted t = [] -> printed t = ["No valid points to upload"]).
Proof.
  intros p t. subst t p. unfold trace_of, outcome, upserted, add_documents.
  unfold mbind, prog_bind. rewrite exec_try_except, exec_bind.
  destruct (exec_build_points h (zip documents embeddings) 0%nat [] w)
    as (ids & w' & -> & _).
  rewrite app_nil_l.
  destruct (uuids_trace ids) as (_ & Hu & _ & Hp).
  pose proof (client_errors_uuids ids) as He.
  destruct (zip_with make_point ids _) as [|pt pts].
  - run_exec. answer h. cbn [fst snd].
    rewrite upsert_calls_app, printed_app, Hu, Hp. cbn.
    split; [split|]; [done|by intros [? _]|done].
  - run_exec. answer h. destruct r as [e|[]]; run_exec; answer h;
      cbn [fst snd];
      rewrite !upsert_calls_app, !printed_app, !client_errors_app,
        Hu, Hp, He; cbn; rewrite ?app_nil_r.
    + split; [split|]; [done|by intros [_ ?]|done].
    + by destruct r.
Qed.

(** ** What is stored and what comes back *)

(** A document stored by [add_documents] at position [i] and found again
    by [similarity_search] with score [s] comes back with its content, with
    its [source_type], [source_name] and [session_id] ([None] for one it
    did not have), with its [chunk_id] or else [i], and with [s]; its
    metadata have these five keys and no other, so any other key of the
    original is gone.  Through [get_documents_by_session] it comes back as
    a record with the identifier and the content, and without a
    [session_id]. *)
Theorem stored_document_comes_back (i : nat) (doc : Document) (id : pyval)
    (s : float) :
  (exists d,
     result_to_document (mkScoredPoint id (Some (make_payload i doc)) s)
       = Ret d
     /\ page_content d = page_content doc
     /\ (forall key,
           key ∈ ["source_type"; "source_name"; "session_id"] ->
           metadata d !! key = Some (dict_get (metadata doc) key))
     /\ metadata d !! "chunk_id"
        = Some (default (PyInt (Z.of_nat i)) (metadata doc !! "chunk_id"))
     /\ metadata d !! "score" = Some (PyFloat s)
     /\ dom (metadata d)
        = ({["source_type"; "source_name"; "session_id"; "chunk_id";
             "score"]} : gset string))
  /\ (exists r,
        record_to_dict (mkRecord id (Some (make_payload i doc))) = Ret r
        /\ r !! "id" = Some id
        /\ r !! "content" = Some (PyStr (page_content doc))
        /\ r !! "chunk_id"
           = Some (default (PyInt (Z.of_nat i)) (metadata doc !! "chunk_id"))
        /\ r !! "session_id" = None).
Proof.
  pose proof (make_payload_lookup i doc) as (Hc & Ht & Hn & Hs & Hk).
  assert (dict_get (make_payload i doc) "content"
          = PyStr (page_content doc)
          /\ dict_get (make_payload i doc) "source_type"
             = dict_get (metadata doc) "source_type"
          /\ dict_get (make_payload i doc) "source_name"
             = dict_get (metadata doc) "source_name"
          /\ dict_get (make_payload i doc) "session_id"
             = dict_get (metadata doc) "session_id"
          /\ dict_get (make_payload i doc) "chunk_id"
             = default (PyInt (Z.of_nat i)) (metadata doc !! "chunk_id"))
    as (Gc & Gt & Gn & Gs & Gk).
  { unfold dict_get at 1 2 4 6 8. by rewrite Hc, Ht, Hn, Hs, Hk. }
  split.
  - unfold result_to_document, payload_getitem, payload_get.
    cbn [scored_payload score]. rewrite Hc, Gt, Gn, Gs, Gk.
    unfold mbind, prog_bind. cbn [bind new_Document].
    eexists. split; [done|]. cbn [page_content metadata].
    split; [done|]. split; [|split; [|split]].
    + intros key Hkey.
      repeat (apply elem_of_cons in Hkey as [->|Hkey];
              [by simplify_map_eq|]).
      by apply elem_of_nil in Hkey.
    + by simplify_map_eq.
    + by simplify_map_eq.
    + cbn [list_to_map foldr uncurry fst snd].
      rewrite !dom_insert_L, dom_empty_L. set_solver.
  - unfold record_to_dict, payload_get. cbn [record_payload record_id].
    rewrite Gc, Gt, Gn, Gk. unfold mbind, prog_bind. cbn [bind].
    eexists. split; [done|]. repeat split; by simplify_map_eq.
Qed.

(** ** get_documents_by_session *)

Lemma records_with_payload (ps : list Record_) :
  forall acc : list (gmap string pyval),
    Forall (fun p => is_Some (record_payload p)) ps ->
    exists ds, records_to_dicts ps acc = Ret (acc ++ ds)
               /\ Forall2 stands_for_record ds ps.
Proof.
  induction ps as [|p ps IH]; intros acc Hall.
  - exists []. by rewrite app_nil_r.
  - inversion Hall as [|? ? [payload Hp] Hrest]; subst.
    cbn [records_to_dicts]. unfold record_to_dict. rewrite Hp. cbn.
    match goal with
    | |- context [records_to_dicts ps (acc ++ [?d])] =>
        destruct (IH (acc ++ [d]) Hrest) as (ds & -> & Hds);
        exists (d :: ds)
    end.
    rewrite <- app_assoc. split; [done|]. constructor; [|done].
    exists payload. done.
Qed.

(** Unlike [similarity_search], [get_documents_by_session] does not need
    any payload field: when every point of the service's answer has a
    payload, it returns one record per point, in the order of the answer,
    with the point's identifier and with [None] for each of [content],
    [source_type], [source_name], [chunk_id] the payload lacks, and prints
    nothing. *)
Theorem get_documents_by_session_keeps_every_point {W} (h : handler W)
    (w : W) (self : QdrantVectorStore) (session_id : string)
    (ps : list Record_) :
  let p := get_documents_by_session self session_id in
  scroll_answers (trace_of h p w) = [ps] ->
  Forall (fun pt => is_Some (record_payload pt)) ps ->
  exists docs,
    outcome h p w = inr docs
    /\ Forall2 stands_for_record docs ps
    /\ printed (trace_of h p w) = [].
Proof.
  intros p. subst p. unfold trace_of, outcome, get_documents_by_session.
  run_exec. answer h. destruct r as [e|[ps' next]]; run_exec.
  { answer h. done. }
  cbn [bind try_except exec].
  destruct (records_to_dicts_cases ps' []) as [(ds & Hret & _)|(e & Hraise)].
  - rewrite Hret. cbn. intros [= <-] Hall.
    destruct (records_with_payload ps' [] Hall) as (ds' & Hret' & Hds').
    rewrite Hret in Hret'. injection Hret' as ->.
    exists ds'. done.
  - rewrite Hraise. cbn [bind try_except exec]. answer h. cbn.
    intros [= <-] Hall.
    destruct (records_with_payload ps' [] Hall) as (ds' & Hret' & _).
    congruence.
Qed.

Lemma get_documents_by_session_keeps_every_point_witness :
  let p := get_documents_by_session store "s1" in
  exists docs,
    outcome mock_handler p stocked_foreign = inr docs
    /\ length docs = 3%nat.
Proof.
  intros p.
  set (ps := (fun pt => mkRecord (PyStr (point_id pt))
                          (Some (point_payload pt)))
               <$> filter (fun pt => selected (Some (session_filter "s1")) pt)
                     (mock_points stocked_foreign)).
  destruct (get_documents_by_session_keeps_every_point mock_handler
              stocked_foreign store "s1" ps)
    as (docs & Hout & Hdocs & _).
  - vm_compute. reflexivity.
  - repeat constructor; by eexists.
  - exists docs. split; [exact Hout|].
    apply Forall2_length in Hdocs. rewrite Hdocs. vm_compute. reflexivity.
Defined.

(** ** Setup *)

(** [__init__] first reads [QDRANT_URL] and [QDRANT_API_KEY] and builds the
    client with them, the URL being [http://localhost:6333] when the
    variable is not set.  When the constructor raises, the exception goes
    to the caller with nothing else done.  A store that is returned has the
    collection name [COLLECTION_NAME] gave, or [rag_documents], and the
    dimensionality 768. *)
Theorem init_reads_its_configuration {W} (h : handler W) (w : W) :
  let t := trace_of h __init__ w in
  exists url api_key r rest,
    t = Entry (Getenv "QDRANT_URL") url
        :: Entry (Getenv "QDRANT_API_KEY") api_key
        :: Entry (QdrantClient (default "http://localhost:6333" url) api_key)
             r
        :: rest
    /\ (forall e, r = inl e -> outcome h __init__ w = inl e /\ rest = [])
    /\ (forall self,
          outcome h __init__ w = inr self ->
          self = mkQdrantVectorStore
                   (configured "COLLECTION_NAME" "rag_documents" t) 768).
Proof.
  unfold trace_of, outcome.
  set (P := fun x : (exn + QdrantVectorStore) * W * trace =>
    exists url api_key r rest,
      x.2 = Entry (Getenv "QDRANT_URL") url
            :: Entry (Getenv "QDRANT_API_KEY") api_key
            :: Entry (QdrantClient (default "http://localhost:6333" url)
                        api_key) r
            :: rest
      /\ (forall e, r = inl e -> x.1.1 = inl e /\ rest = [])
      /\ (forall self,
            x.1.1 = inr self ->
            self = mkQdrantVectorStore
                     (configured "COLLECTION_NAME" "rag_documents" x.2) 768)).
  change (P (exec h __init__ w)).
  unfold __init__, getenv_default.
  unfold _ensure_collection_exists, ensure_payload_index.
  crunch h; subst P; cbn; do 4 eexists; (split; [reflexivity|]);
    (split; [by intros ? [= <-] | by intros ? [= <-]]).
Qed.

(** The listing decides about the creation: when the listing shows the
    configured collection, [__init__] creates none; when it does not, it
    asks once for a collection of that name with 768 dimensions and the
    cosine distance. *)
Theorem init_creates_only_a_missing_collection {W} (h : handler W) (w : W)
    (names : list string) :
  let t := trace_of h __init__ w in
  let collection := configured "COLLECTION_NAME" "rag_documents" t in
  listings t = [names] ->
  created_collections t =
    if bool_decide (collection ∈ names) then []
    else [(collection, mkVectorParams 768 COSINE)].
Proof.
  unfold trace_of.
  set (P := fun x : (exn + QdrantVectorStore) * W * trace =>
    listings x.2 = [names] ->
    created_collections x.2 =
      if bool_decide
           (configured "COLLECTION_NAME" "rag_documents" x.2 ∈ names)
      then []
      else [(configured "COLLECTION_NAME" "rag_documents" x.2,
             mkVectorParams 768 COSINE)]).
  change (P (exec h __init__ w)).
  unfold __init__, getenv_default.
  unfold _ensure_collection_exists, ensure_payload_index.
  crunch h; subst P; cbn; intros [= <-];
    match goal with
    | H : bool_decide _ = _ |- _ =>
        cbn [collection_name] in H; by rewrite H
    end.
Qed.

Lemma init_creates_only_a_missing_collection_witness :
  created_collections (trace_of mock_handler __init__ ready) = []
  /\ created_collections (trace_of mock_handler __init__ (fresh NoFault))
     = [("rag_documents", mkVectorParams 768 COSINE)].
Proof.
  split.
  - apply (init_creates_only_a_missing_collection mock_handler ready
             ["rag_documents"]).
    vm_compute. reflexivity.
  - apply (init_creates_only_a_missing_collection mock_handler
             (fresh NoFault) []).
    vm_compute. reflexivity.
Defined.

(** ** The test for "already exists" *)

Lemma prefix_app (sub s : string) : String.prefix sub (sub +:+ s) = true.
Proof.
  induction sub as [|c sub IH]; simpl; [by destruct s|].
  by destruct (ascii_dec c c).
Qed.

Lemma prefix_split (sub : string) :
  forall s, String.prefix sub s = true -> exists post, s = sub +:+ post.
Proof.
  induction sub as [|c sub IH]; intros s Hp; [by exists s|].
  destruct s as [|c' s]; [done|]. simpl in Hp.
  destruct (ascii_dec c c') as [<-|]; [|done].
  destruct (IH s Hp) as [post ->]. by exists post.
Qed.

Lemma contains_spec (sub s : string) :
  contains sub s = true <-> exists pre post, s = pre +:+ sub +:+ post.
Proof.
  split.
  - induction s as [|c s IH]; cbn [contains]; rewrite orb_true_iff.
    + intros [Hp|?]; [|done].
      apply prefix_split in Hp as [post ->]. by exists "", post.
    + intros [Hp|Hc].
      * apply prefix_split in Hp as [post Heq]. exists "", post. done.
      * destruct (IH Hc) as (pre & post & ->).
        by exists (String c pre), post.
  - intros (pre & post & ->). induction pre as [|c pre IH].
    + cbn [String.append]. pose proof (prefix_app sub post) as Hp.
      destruct (sub +:+ post); simpl in *; by rewrite Hp.
    + change (contains sub (String c (pre +:+ sub +:+ post)) = true).
      change (String.prefix sub (String c (pre +:+ sub +:+ post))
              || contains sub (pre +:+ sub +:+ post) = true).
      by rewrite IH, orb_true_r.
Qed.

Lemma lower_app (a b : string) : lower (a +:+ b) = lower a +:+ lower b.
Proof. induction a as [|c a IH]; simpl; [done|]. by rewrite IH. Qed.

Lemma lower_app_inv (x : string) :
  forall s y, lower s = x +:+ y ->
    exists a b, s = a +:+ b /\ lower a = x /\ lower b = y.
Proof.
  induction x as [|c x IH]; intros s y Heq.
  - by exists "", s.
  - destruct s as [|c' s]; [done|]. simpl in Heq. injection Heq as Hc Heq.
    destruct (IH s y Heq) as (a & b & -> & Ha & Hb).
    exists (String c' a), b. simpl. by rewrite Hc, Ha.
Qed.

(** The test [_ensure_collection_exists] makes on a failed index creation,
    ["already exists" not in str(e).lower()], looks for the words anywhere
    in the message and in any letter case: the failure counts as "already
    exists" exactly when the message has a part that reads [already exists]
    once lowered. *)
Theorem already_exists_anywhere_in_any_case (e : exn) :
  says_already_exists e = true
  <-> exists pre mid post,
        str e = pre +:+ mid +:+ post /\ lower mid = "already exists".
Proof.
  unfold says_already_exists. rewrite contains_spec. split.
  - intros (x & y & Heq).
    apply lower_app_inv in Heq as (pre & rest & Hstr & _ & Hrest).
    apply lower_app_inv in Hrest as (mid & post & -> & Hmid & _).
    by exists pre, mid, post.
  - intros (pre & mid & post & -> & Hmid).
    exists (lower pre), (lower post). by rewrite !lower_app, Hmid.
Qed.
